(** * Dashboard Financiero: store, ingestion and KPI computation of [app.py]

    A shallow embedding of the Streamlit dashboard.  The script keeps two
    SQLite tables ([uploads] and [fact_capital]), fills them from uploaded
    spreadsheets, and on every run filters the facts, groups them by date and
    computes six KPIs.

    Modelling conventions.
    - SQLite [REAL] values and pandas [float64] columns are exact rationals
      ([Q]); rounding, infinities and NaN arithmetic are outside the model.
    - A pandas [Timestamp] is an integer on the time axis ([Z]).
    - A Python exception is a value of [Exn]; a call that may raise returns
      a [Result].
    - A database connection carries the committed database, the pending
      transaction and a fault schedule, so that a failing statement and the
      rollback of an uncommitted transaction can be observed. *)

From Stdlib Require Import ZArith QArith List String Bool Lia.
From Stdlib Require Import Sorted Permutation.
Import ListNotations.

Open Scope string_scope.
Open Scope list_scope.
Open Scope Z_scope.

(* ================================================================== *)
(** * Python values and exceptions *)

Inductive Exn : Type :=
| KeyError (key : string)       (* row["..."] on an absent column label *)
| IndexError                    (* .iloc[0] on an empty frame *)
| ZeroDivisionError
| BindError (param : nat)       (* sqlite3: unsupported parameter type *)
| OperationalError              (* sqlite3: the statement could not run *)
| ExcelError                    (* pd.read_excel could not read the file *)
| ParserError.                  (* pd.to_datetime could not parse a text *)

Inductive Result (A : Type) : Type :=
| Ok (a : A)
| Raise (e : Exn).

Arguments Ok {A} a.
Arguments Raise {A} e.

Definition Timestamp : Type := Z.

(** A spreadsheet cell as [pd.read_excel] delivers it. *)
Inductive Cell : Type :=
| CNum (q : Q)                  (* int or float *)
| CText (s : string)            (* str *)
| CStamp (t : Timestamp)        (* date-formatted cell *)
| CNaN                          (* empty cell: nan / NaT *)
| CObject.                      (* e.g. datetime.time: no sqlite3 adapter *)

(** The text [str(x)].  For a [str] it is the text itself; for any other cell
    it is kept as the rendering of that cell. *)
Inductive PyText : Type :=
| Lit (s : string)
| StrOf (c : Cell).

Definition py_str (c : Cell) : PyText :=
  match c with
  | CText s => Lit s
  | _ => StrOf c
  end.

(** What a column of the database holds. *)
Inductive SqlValue : Type :=
| SqlNull
| SqlReal (q : Q)
| SqlText (t : PyText).

(** Parameter binding of the [sqlite3] module: numbers and texts are bound as
    they are, a [Timestamp] goes through the datetime adapter, which renders
    it as text, nan is stored as NULL, anything else is refused.

    Scope.  The value is the one bound, not its storage class: SQLite's
    column affinity (a numeral text in a REAL column becomes a number, a
    number in a TEXT column becomes its numeral) and the signed 64-bit range
    of bound integers (beyond it [sqlite3] raises OverflowError) are not
    modelled.  The model and the store agree on [well_typed] rows: texts in
    the text columns, numbers within that range in the REAL columns. *)
Definition adapt (c : Cell) : option SqlValue :=
  match c with
  | CNum q => Some (SqlReal q)
  | CText s => Some (SqlText (Lit s))
  | CStamp t => Some (SqlText (StrOf (CStamp t)))
  | CNaN => Some SqlNull
  | CObject => None
  end.

(* ================================================================== *)
(** * DATABASE SETUP *)

(** A row of [uploads]. *)
Record Upload : Type := mkUpload {
  upload_id : Z;
  filename : string;
  timestamp : string
}.

(** A row of [fact_capital]; [D] is the type of the [fecha] column: the
    stored text, or the datetime it is converted to by [load_data]. *)
Record FactCapital (D : Type) : Type := mkFactCapital {
  fc_id : Z;
  fc_fecha : D;
  fc_centro : SqlValue;
  fc_concepto : SqlValue;
  fc_inicial : SqlValue;
  fc_aportacion : SqlValue;
  fc_retiro : SqlValue;
  fc_rendimiento : SqlValue;
  fc_saldo : SqlValue;
  fc_upload_id : Z
}.

Arguments mkFactCapital {D}.
Arguments fc_id {D}.
Arguments fc_fecha {D}.
Arguments fc_centro {D}.
Arguments fc_concepto {D}.
Arguments fc_inicial {D}.
Arguments fc_aportacion {D}.
Arguments fc_retiro {D}.
Arguments fc_rendimiento {D}.
Arguments fc_saldo {D}.
Arguments fc_upload_id {D}.

(** The file [data.db]: both tables in insertion order and the AUTOINCREMENT
    counters SQLite keeps for them (the largest key ever handed out). *)
Record DB : Type := mkDB {
  uploads : list Upload;
  fact_capital : list (FactCapital PyText);
  seq_uploads : Z;
  seq_fact_capital : Z
}.

Definition empty_db : DB := mkDB [] [] 0 0.

(** [CREATE TABLE IF NOT EXISTS]: creates the empty tables when the file is
    new, and leaves an existing database as it is. *)
Definition init_db (file : option DB) : DB :=
  match file with
  | None => empty_db
  | Some db => db
  end.

(* ================================================================== *)
(** * Connections and transactions

    [sqlite3.connect] opens a transaction implicitly before the first
    INSERT or DELETE; its changes stay pending until [conn.commit()].  A
    connection that goes away without a commit rolls the pending changes
    back.  [budget] is the fault schedule: [Some n] lets [n] statements run
    and makes the next one raise; [None] never faults. *)

Record Conn : Type := mkConn {
  disk : DB;
  txn : DB;
  budget : option nat
}.

Definition Sql (A : Type) : Type := Conn -> Result A * Conn.

Definition ret {A : Type} (a : A) : Sql A := fun c => (Ok a, c).

Definition bind {A B : Type} (m : Sql A) (k : A -> Sql B) : Sql B :=
  fun c =>
    match m c with
    | (Ok a, c') => k a c'
    | (Raise e, c') => (Raise e, c')
    end.

Notation "x <- m ;; k" := (bind m (fun x => k))
  (at level 61, m at next level, right associativity).
Notation "m ;;; k" := (bind m (fun _ => k))
  (at level 61, right associativity).

(** A Python expression that may raise, evaluated while the connection is
    open. *)
Definition lift {A : Type} (r : Result A) : Sql A := fun c => (r, c).

Definition tick : Sql unit :=
  fun c =>
    match budget c with
    | None => (Ok tt, c)
    | Some (S n) => (Ok tt, mkConn (disk c) (txn c) (Some n))
    | Some O => (Raise OperationalError, c)
    end.

(** [cur.execute(stmt)]: acts on the pending transaction only. *)
Definition execute {A : Type} (stmt : DB -> A * DB) : Sql A :=
  tick ;;;
  (fun c => let (a, w) := stmt (txn c) in (Ok a, mkConn (disk c) w (budget c))).

(** [conn.commit()]: the pending transaction becomes the database. *)
Definition commit : Sql unit :=
  tick ;;;
  (fun c => (Ok tt, mkConn (txn c) (txn c) (budget c))).

(** [sqlite3.connect("data.db")] up to the point where the connection is
    closed or dropped: the outcome of the body and the database left in the
    file. *)
Definition with_connection {A : Type} (faults : option nat) (body : Sql A)
    (db : DB) : Result A * DB :=
  let (r, c) := body (mkConn db db faults) in (r, disk c).

Fixpoint for_each {A : Type} (l : list A) (body : A -> Sql unit) : Sql unit :=
  match l with
  | [] => ret tt
  | x :: l' => body x ;;; for_each l' body
  end.

(** Sequencing of plain Python expressions that may raise. *)
Definition and_then {A B : Type} (r : Result A) (k : A -> Result B)
    : Result B :=
  match r with
  | Ok a => k a
  | Raise e => Raise e
  end.

Notation "x <~ r ;; k" := (and_then r (fun x => k))
  (at level 61, r at next level, right associativity).

Fixpoint map_result {A B : Type} (f : A -> Result B) (l : list A)
    : Result (list B) :=
  match l with
  | [] => Ok []
  | x :: l' => y <~ f x ;; ys <~ map_result f l' ;; Ok (y :: ys)
  end.

(* ================================================================== *)
(** * Sorting

    [sort_values] and [ORDER BY] are insertion sorts on a key; rows with
    equal keys keep their relative order. *)

Fixpoint insert_by {A : Type} (leb : A -> A -> bool) (x : A) (l : list A)
    : list A :=
  match l with
  | [] => [x]
  | y :: l' => if leb x y then x :: y :: l' else y :: insert_by leb x l'
  end.

Definition sort_by {A : Type} (leb : A -> A -> bool) (l : list A) : list A :=
  fold_right (insert_by leb) [] l.

(** [df.sort_values(key)]: ascending.  pandas sorts with an unstable
    quicksort by default: the model gives the frame pandas gives when the
    frame is already in key order or has no two rows with the same key; on
    other frames the rows of one key may come in another order. *)
Definition sort_values {A : Type} (key : A -> Timestamp) (df : list A)
    : list A :=
  sort_by (fun a b => key a <=? key b) df.

(** [ORDER BY key DESC]. *)
Definition order_by_desc {A : Type} (key : A -> Z) (rows : list A) : list A :=
  sort_by (fun a b => key b <=? key a) rows.

(* ================================================================== *)
(** * SAVE UPLOADED FILE *)

(** The frame [pd.read_excel] returns: the header labels and the data rows;
    a row gives the cell under each label of the header. *)
Record DataFrame : Type := mkDataFrame {
  columns : list string;
  iterrows : list (string -> Cell)
}.

(** The object the file uploader hands over; [workbook] is [None] when the
    bytes are not a readable spreadsheet. *)
Record UploadedFile : Type := mkUploadedFile {
  name : string;
  workbook : option DataFrame
}.

Definition read_excel (file : UploadedFile) : Result DataFrame :=
  match workbook file with
  | Some df => Ok df
  | None => Raise ExcelError
  end.

(** [row[key]] *)
Definition getitem (df : DataFrame) (row : string -> Cell) (key : string)
    : Result Cell :=
  if existsb (String.eqb key) (columns df) then Ok (row key)
  else Raise (KeyError key).

(** The parameter tuple of the INSERT, before binding. *)
Record FactParams : Type := mkFactParams {
  p_fecha : PyText;
  p_centro : Cell;
  p_concepto : Cell;
  p_inicial : Cell;
  p_aportacion : Cell;
  p_retiro : Cell;
  p_rendimiento : Cell;
  p_saldo : Cell;
  p_upload_id : Z
}.

(** The tuple expression of [save_upload], evaluated left to right. *)
Definition fact_params (df : DataFrame) (row : string -> Cell) (uid : Z)
    : Result FactParams :=
  fecha <~ getitem df row "Fecha" ;;
  centro <~ getitem df row "Centro" ;;
  concepto <~ getitem df row "Concepto" ;;
  inicial <~ getitem df row "Inicial" ;;
  aportacion <~ getitem df row "Aportación" ;;
  retiro <~ getitem df row "Retiro" ;;
  rendimiento <~ getitem df row "Rendimiento" ;;
  saldo <~ getitem df row "Saldo" ;;
  Ok (mkFactParams (py_str fecha) centro concepto inicial aportacion retiro
        rendimiento saldo uid).

Definition bind_param (pos : nat) (c : Cell) : Result SqlValue :=
  match adapt c with
  | Some v => Ok v
  | None => Raise (BindError pos)
  end.

(** Binding of the nine parameters, in order.  Positions count from 1, as
    in the message "Error binding parameter 5": the date text is parameter
    1 and the upload key parameter 9, and both always bind.  The result is
    the row without its key. *)
Definition bind_params (p : FactParams) : Result (Z -> FactCapital PyText) :=
  centro <~ bind_param 2 (p_centro p) ;;
  concepto <~ bind_param 3 (p_concepto p) ;;
  inicial <~ bind_param 4 (p_inicial p) ;;
  aportacion <~ bind_param 5 (p_aportacion p) ;;
  retiro <~ bind_param 6 (p_retiro p) ;;
  rendimiento <~ bind_param 7 (p_rendimiento p) ;;
  saldo <~ bind_param 8 (p_saldo p) ;;
  Ok (fun key => mkFactCapital key (p_fecha p) centro concepto inicial
                   aportacion retiro rendimiento saldo (p_upload_id p)).

(** [INSERT INTO uploads (filename, timestamp) VALUES (?, ?)]; the value is
    [cur.lastrowid]. *)
Definition insert_upload (fname stamp : string) (db : DB) : Z * DB :=
  let key := seq_uploads db + 1 in
  (key, mkDB (uploads db ++ [mkUpload key fname stamp]) (fact_capital db)
          key (seq_fact_capital db)).

(** [INSERT INTO fact_capital (...) VALUES (?, ?, ?, ?, ?, ?, ?, ?, ?)] *)
Definition insert_fact (row : Z -> FactCapital PyText) (db : DB)
    : unit * DB :=
  let key := seq_fact_capital db + 1 in
  (tt, mkDB (uploads db) (fact_capital db ++ [row key]) (seq_uploads db) key).

(** The body of the loop over [df.iterrows()]. *)
Definition insert_row (df : DataFrame) (uid : Z) (row : string -> Cell)
    : Sql unit :=
  params <- lift (fact_params df row uid) ;;
  bound <- lift (bind_params params) ;;
  execute (insert_fact bound).

Definition save_upload_body (file : UploadedFile) (now : string) : Sql unit :=
  uid <- execute (insert_upload (name file) now) ;;
  df <- lift (read_excel file) ;;
  for_each (iterrows df) (insert_row df uid) ;;;
  commit.

(** [save_upload(file)]; [now] is [datetime.now().isoformat()]. *)
Definition save_upload (faults : option nat) (file : UploadedFile)
    (now : string) (db : DB) : Result unit * DB :=
  with_connection faults (save_upload_body file now) db.

(* ================================================================== *)
(** * LOAD ALL DATA *)

(** [pd.to_datetime] on one text of the [fecha] column.  The rendering of a
    [Timestamp] is read back as that timestamp and the rendering of nan as
    NaT ([None]); [parse] stands for the date parser of pandas on any other
    text, [None] meaning that it rejects the text.

    Scope.  Each text is parsed on its own.  Recent versions of pandas
    infer one format from the first text of the column and reject the texts
    of another format, so the conversion of a column whose texts do not all
    share the format of the first is not modelled. *)
Definition to_datetime (parse : PyText -> option (option Timestamp))
    (t : PyText) : Result (option Timestamp) :=
  match t with
  | StrOf (CStamp ts) => Ok (Some ts)
  | StrOf CNaN => Ok None
  | _ => match parse t with
         | Some d => Ok d
         | None => Raise ParserError
         end
  end.

Definition convert_fecha (parse : PyText -> option (option Timestamp))
    (r : FactCapital PyText) : Result (FactCapital (option Timestamp)) :=
  d <~ to_datetime parse (fc_fecha r) ;;
  Ok (mkFactCapital (fc_id r) d (fc_centro r) (fc_concepto r) (fc_inicial r)
        (fc_aportacion r) (fc_retiro r) (fc_rendimiento r) (fc_saldo r)
        (fc_upload_id r)).

Definition load_data (parse : PyText -> option (option Timestamp)) (db : DB)
    : Result (list (FactCapital (option Timestamp))) :=
  let df := fact_capital db in               (* SELECT * FROM fact_capital *)
  match df with
  | [] => Ok []
  | _ => map_result (convert_fecha parse) df
  end.

(* ================================================================== *)
(** * LIST + DELETE UPLOADED FILES *)

(** [SELECT * FROM uploads ORDER BY upload_id DESC] *)
Definition get_uploads (db : DB) : list Upload :=
  order_by_desc upload_id (uploads db).

(** [DELETE FROM fact_capital WHERE upload_id = ?] *)
Definition delete_facts (uid : Z) (db : DB) : unit * DB :=
  (tt, mkDB (uploads db)
         (filter (fun r => negb (fc_upload_id r =? uid)) (fact_capital db))
         (seq_uploads db) (seq_fact_capital db)).

(** [DELETE FROM uploads WHERE upload_id = ?] *)
Definition delete_upload_row (uid : Z) (db : DB) : unit * DB :=
  (tt, mkDB (filter (fun u => negb (upload_id u =? uid)) (uploads db))
         (fact_capital db) (seq_uploads db) (seq_fact_capital db)).

Definition delete_upload_body (uid : Z) : Sql unit :=
  execute (delete_facts uid) ;;;
  execute (delete_upload_row uid) ;;;
  commit.

Definition delete_upload (faults : option nat) (uid : Z) (db : DB)
    : Result unit * DB :=
  with_connection faults (delete_upload_body uid) db.

(** The states of [data.db] the program produces: the new database, and any
    database left by a call of [save_upload] or [delete_upload], whatever the
    file, the clock and the faults. *)
Inductive reachable : DB -> Prop :=
| reach_init : reachable empty_db
| reach_save : forall db faults file now,
    reachable db -> reachable (snd (save_upload faults file now db))
| reach_delete : forall db faults uid,
    reachable db -> reachable (snd (delete_upload faults uid db)).

(* ================================================================== *)
(** * The frame the dashboard computes on

    [Measures] are the six columns that survive [groupby("fecha").agg(...)
    .reset_index()] and the only ones [calculate_kpis] and the chart read.  A
    [FactRow] is a full row of the loaded frame whose columns have the types
    the dashboard expects. *)

Record Measures : Type := mkMeasures {
  fecha : Timestamp;
  inicial : Q;
  aportacion : Q;
  retiro : Q;
  rendimiento : Q;
  saldo : Q
}.

Record FactRow : Type := mkFactRow {
  id : Z;
  centro : string;
  concepto : string;
  of_upload : Z;
  measures :> Measures
}.

Definition as_float (v : SqlValue) : option Q :=
  match v with
  | SqlReal q => Some q
  | _ => None
  end.

Definition as_text (v : SqlValue) : option string :=
  match v with
  | SqlText (Lit s) => Some s
  | _ => None
  end.

(** A loaded row read with the expected column types: a proper timestamp,
    two texts and five floats; [None] when a value has another type. *)
Definition typed_row (r : FactCapital (option Timestamp)) : option FactRow :=
  match fc_fecha r, as_text (fc_centro r), as_text (fc_concepto r),
        as_float (fc_inicial r), as_float (fc_aportacion r),
        as_float (fc_retiro r), as_float (fc_rendimiento r),
        as_float (fc_saldo r) with
  | Some d, Some ce, Some co, Some i, Some a, Some w, Some y, Some s =>
      Some (mkFactRow (fc_id r) ce co (fc_upload_id r)
              (mkMeasures d i a w y s))
  | _, _, _, _, _, _, _, _ => None
  end.

Fixpoint typed_frame (df : list (FactCapital (option Timestamp)))
    : option (list FactRow) :=
  match df with
  | [] => Some []
  | r :: df' =>
      match typed_row r, typed_frame df' with
      | Some x, Some xs => Some (x :: xs)
      | _, _ => None
      end
  end.

(* ================================================================== *)
(** * KPI CALCULATIONS *)

(** [df[col].sum()] *)
Definition col_sum {A : Type} (col : A -> Q) (df : list A) : Q :=
  fold_left Qplus (map col df) 0%Q.

(** [s.iloc[0]] and [s.iloc[-1]] *)
Definition iloc_first {A : Type} (s : list A) : Result A :=
  match s with
  | [] => Raise IndexError
  | x :: _ => Ok x
  end.

Definition iloc_last {A : Type} (s : list A) : Result A :=
  match s with
  | [] => Raise IndexError
  | x :: s' => Ok (last s' x)
  end.

(** [a / b] *)
Definition py_div (a b : Q) : Result Q :=
  if Qeq_bool b 0 then Raise ZeroDivisionError else Ok (a / b)%Q.

(** [a > b] *)
Definition Qgt_bool (a b : Q) : bool := negb (Qle_bool a b).

Record Kpis : Type := mkKpis {
  capital_inicial : Q;
  capital_final : Q;
  aportaciones : Q;
  retiros : Q;
  rendimiento_total : Q;
  rendimiento_pct : Q
}.

Definition calculate_kpis (df : list Measures) : Result Kpis :=
  let df := sort_values fecha df in
  capital_inicial <~ iloc_first (map inicial df) ;;
  capital_final <~ iloc_last (map saldo df) ;;
  let aportes := col_sum aportacion df in
  let retiros := col_sum retiro df in
  let rendimiento_total := col_sum rendimiento df in
  rendimiento_pct <~
    (if Qgt_bool capital_inicial 0 then py_div rendimiento_total capital_inicial
     else Ok 0%Q) ;;
  Ok (mkKpis capital_inicial capital_final aportes retiros rendimiento_total
        rendimiento_pct).

(* ================================================================== *)
(** * SIDEBAR: the filters *)

(** The three selections of the sidebar applied in turn.  [date_range] is
    what the date picker returns, already converted by [pd.to_datetime]; the
    date filter applies only when it holds two dates. *)
Definition df_filtered (df : list FactRow) (centro0 concepto0 : string)
    (date_range : list Timestamp) : list FactRow :=
  let by_centro := filter (fun r => String.eqb (centro r) centro0) df in
  let by_concepto :=
    if negb (String.eqb concepto0 "Todos")
    then filter (fun r => String.eqb (concepto r) concepto0) by_centro
    else by_centro in
  match date_range with
  | [start_date; end_date] =>
      filter (fun r : FactRow =>
                (start_date <=? fecha r) && (fecha r <=? end_date))
        by_concepto
  | _ => by_concepto
  end.

(** The filter in the words of the specification: the category matches, the
    subcategory matches unless the sentinel is selected, and the date lies
    between both ends, inclusive. *)
Definition spec_keep (centro0 concepto0 : string) (date_start date_end : Z)
    (r : FactRow) : Prop :=
  centro r = centro0 /\
  (concepto0 = "Todos" \/ concepto r = concepto0) /\
  date_start <= fecha r <= date_end.

(** The selection as one test on a row. *)
Definition selected (centro0 concepto0 : string) (date_start date_end : Z)
    (r : FactRow) : bool :=
  String.eqb (centro r) centro0 &&
  (String.eqb concepto0 "Todos" || String.eqb (concepto r) concepto0) &&
  ((date_start <=? fecha r) && (fecha r <=? date_end)).

(* ================================================================== *)
(** * GROUPING (ALL CONCEPTS) *)

(** The group keys of [groupby]: the distinct dates in ascending order. *)
Fixpoint insert_key (d : Timestamp) (keys : list Timestamp)
    : list Timestamp :=
  match keys with
  | [] => [d]
  | k :: keys' =>
      if d <? k then d :: keys
      else if d =? k then keys
      else k :: insert_key d keys'
  end.

Definition group_keys (dates : list Timestamp) : list Timestamp :=
  fold_right insert_key [] dates.

(** The rows of one group. *)
Definition group_of (df : list FactRow) (d : Timestamp) : list FactRow :=
  filter (fun r : FactRow => fecha r =? d) df.

(** [df.groupby("fecha").agg({... "sum"}).reset_index()] *)
Definition groupby_fecha_sum (df : list FactRow) : list Measures :=
  map (fun d =>
         let g := map measures (group_of df d) in
         mkMeasures d (col_sum inicial g) (col_sum aportacion g)
           (col_sum retiro g) (col_sum rendimiento g) (col_sum saldo g))
      (group_keys (map (fun r : FactRow => fecha r) df)).

(** [df_grouped] is either the aggregated frame or a copy of the filtered
    one with all of its columns. *)
Inductive Frame : Type :=
| Aggregated (rows : list Measures)
| Detail (rows : list FactRow).

Definition df_grouped (concepto0 : string) (filtered : list FactRow) : Frame :=
  if String.eqb concepto0 "Todos" then Aggregated (groupby_fecha_sum filtered)
  else Detail filtered.

(** The six columns of a frame. *)
Definition kpi_columns (g : Frame) : list Measures :=
  match g with
  | Aggregated rows => rows
  | Detail rows => map measures rows
  end.

(** [df_grouped.empty] *)
Definition frame_empty (g : Frame) : bool :=
  match kpi_columns g with
  | [] => true
  | _ => false
  end.

(* ================================================================== *)
(** * CHART *)

(** [df_grouped.sort_values("fecha")[["fecha", "saldo"]]] *)
Definition df_plot (g : Frame) : list (Timestamp * Q) :=
  map (fun r => (fecha r, saldo r)) (sort_values fecha (kpi_columns g)).

(* ================================================================== *)
(** * One run of the script, from the loaded frame to the page *)

Inductive Page : Type :=
| NoFacts                       (* "No hay datos cargados aún." *)
| NoMatch                       (* "No hay datos para los filtros ..." *)
| Dashboard (kpis : Kpis) (chart : list (Timestamp * Q)) (table : Frame).

Definition run_script (df : list FactRow) (centro0 concepto0 : string)
    (date_range : list Timestamp) : Result Page :=
  match df with
  | [] => Ok NoFacts
  | _ =>
      let grouped := df_grouped concepto0
                       (df_filtered df centro0 concepto0 date_range) in
      if frame_empty grouped then Ok NoMatch
      else
        kpis <~ calculate_kpis (kpi_columns grouped) ;;
        Ok (Dashboard kpis (df_plot grouped) grouped)
  end.

(* ================================================================== *)
(** * SIDEBAR: the options offered and the upload control *)

(** [s.unique()]: the distinct values in order of first appearance. *)
Fixpoint unique (l : list string) : list string :=
  match l with
  | [] => []
  | x :: l' => x :: filter (fun y => negb (String.eqb y x)) (unique l')
  end.

(** [sorted(df["centro"].unique())], the options of the first selectbox. *)
Definition centro_options (df : list FactRow) : list string :=
  sort_by String.leb (unique (map centro df)).

(** [["Todos"] + conceptos], the options of the second selectbox, computed
    on the frame already filtered by the selected category. *)
Definition concepto_options (df : list FactRow) (centro0 : string)
    : list string :=
  "Todos" ::
  sort_by String.leb
    (unique (map concepto
               (filter (fun r => String.eqb (centro r) centro0) df))).

(** [f"{row['filename']} — {row['timestamp']}"] *)
Definition upload_label (u : Upload) : string :=
  filename u ++ " — " ++ timestamp u.

(** [d[key] = value] on a dict kept as its items in insertion order: an
    existing key keeps its place and takes the new value. *)
Fixpoint dict_set (key : string) (value : Z) (d : list (string * Z))
    : list (string * Z) :=
  match d with
  | [] => [(key, value)]
  | (k, v) :: d' =>
      if String.eqb k key then (k, value) :: d'
      else (k, v) :: dict_set key value d'
  end.

(** [d[key]] *)
Fixpoint dict_get (key : string) (d : list (string * Z)) : Result Z :=
  match d with
  | [] => Raise (KeyError key)
  | (k, v) :: d' => if String.eqb k key then Ok v else dict_get key d'
  end.

(** The dict comprehension over [uploads_df.iterrows()]. *)
Definition upload_list (uploads_df : list Upload) : list (string * Z) :=
  fold_left (fun d u => dict_set (upload_label u) (upload_id u) d)
    uploads_df [].

(** The button that deletes the upload selected by its label. *)
Definition press_delete (faults : option nat) (selected_upload : string)
    (db : DB) : Result unit * DB :=
  match dict_get selected_upload (upload_list (get_uploads db)) with
  | Ok uid => delete_upload faults uid db
  | Raise e => (Raise e, db)
  end.

(** What the user does to [data.db]: upload a file or delete an upload. *)
Inductive Action : Type :=
| Upload_file (faults : option nat) (file : UploadedFile) (now : string)
| Delete_upload (faults : option nat) (uid : Z).

Definition perform (a : Action) (db : DB) : DB :=
  match a with
  | Upload_file faults file now => snd (save_upload faults file now db)
  | Delete_upload faults uid => snd (delete_upload faults uid db)
  end.

Definition replay (history : list Action) (db : DB) : DB :=
  fold_left (fun d a => perform a d) history db.

(* ================================================================== *)
(** * Sample inputs *)

Definition expected_columns : list string :=
  ["Fecha"; "Centro"; "Concepto"; "Inicial"; "Aportación"; "Retiro";
   "Rendimiento"; "Saldo"].

(** A data row given by its cells, in the order of the header. *)
Fixpoint row_of (labels : list string) (cells : list Cell) (key : string)
    : Cell :=
  match labels, cells with
  | l :: labels', c :: cells' =>
      if String.eqb key l then c else row_of labels' cells' key
  | _, _ => CNaN
  end.

Definition sheet (labels : list string) (rows : list (list Cell))
    : DataFrame :=
  mkDataFrame labels (map (row_of labels) rows).

(** 2024-01-01, -02 and -03 as day numbers. *)
Definition jan1 : Timestamp := 19723.
Definition jan2 : Timestamp := 19724.
Definition jan3 : Timestamp := 19725.

(** The three-row ledger: category "A", subcategory "X". *)
Definition ledger : DataFrame :=
  sheet expected_columns
    [ [CStamp jan1; CText "A"; CText "X";
       CNum 1000; CNum 100; CNum 0; CNum 0; CNum 1100];
      [CStamp jan2; CText "A"; CText "X";
       CNum 1100; CNum 0; CNum 20; CNum 70; CNum 1150];
      [CStamp jan3; CText "A"; CText "X";
       CNum 1150; CNum 50; CNum 0; CNum 0; CNum 1200] ].

Definition ledger_file : UploadedFile :=
  mkUploadedFile "ledger.xlsx" (Some ledger).

(** A date parser that accepts no free text. *)
Definition strict_parser (t : PyText) : option (option Timestamp) := None.

(** The ledger uploaded into a new database, loaded, and shown for category
    "A", all subcategories, 2024-01-01 to 2024-01-03. *)
Definition ledger_page : Result Page :=
  let db := snd (save_upload None ledger_file "2024-01-04T09:00:00"
                   (init_db None)) in
  loaded <~ load_data strict_parser db ;;
  match typed_frame loaded with
  | Some df => run_script df "A" "Todos" [jan1; jan3]
  | None => Ok NoFacts
  end.

(** A sheet with the eight labels whose date cell is a text that is not a
    date. *)
Definition undated_file : UploadedFile :=
  mkUploadedFile "undated.xlsx"
    (Some (sheet expected_columns
             [ [CText "sin fecha"; CText "A"; CText "X";
                CNum 1000; CNum 100; CNum 0; CNum 0; CNum 1100] ])).

(** A sheet with the eight labels whose opening balance is a text. *)
Definition text_amount_file : UploadedFile :=
  mkUploadedFile "text_amount.xlsx"
    (Some (sheet expected_columns
             [ [CStamp jan1; CText "A"; CText "X";
                CText "mil"; CNum 100; CNum 0; CNum 0; CNum 1100] ])).



(* ================================================================== *)
(** * Vocabulary of the properties *)

(** A step that touches the pending transaction only. *)
Definition pending_only {A : Type} (m : Sql A) : Prop :=
  forall c, disk (snd (m c)) = disk c.

(** A step that leaves the database as it was whenever it raises. *)
Definition clean_on_raise {A : Type} (m : Sql A) : Prop :=
  forall c e, fst (m c) = Raise e -> disk (snd (m c)) = disk c.

(** The state of the pending transaction while the rows of upload [uid] are
    being inserted: only [fact_capital] grows, by rows of that upload. *)
Definition extends (uid : Z) (c c' : Conn) : Prop :=
  disk c' = disk c /\
  uploads (txn c') = uploads (txn c) /\
  seq_uploads (txn c') = seq_uploads (txn c) /\
  exists new,
    fact_capital (txn c') = fact_capital (txn c) ++ new /\
    Forall (fun r => fc_upload_id r = uid) new.

(** Referential integrity of [data.db]: upload keys are handed out in
    increasing order and never above the counter, and every fact row names
    an upload of the table. *)
Definition consistent (db : DB) : Prop :=
  StronglySorted Z.lt (map upload_id (uploads db)) /\
  Forall (fun u => upload_id u <= seq_uploads db) (uploads db) /\
  Forall (fun r => In (fc_upload_id r) (map upload_id (uploads db)))
    (fact_capital db).

(** The header row carries the eight expected labels. *)
Definition has_columns (df : DataFrame) : Prop :=
  Forall (fun h => In h (columns df)) expected_columns.


(** The seven cells bound as they are have a type [sqlite3] accepts. *)
Definition bindable (row : string -> Cell) : Prop :=
  Forall (fun h => adapt (row h) <> None)
    ["Centro"; "Concepto"; "Inicial"; "Aportación"; "Retiro"; "Rendimiento";
     "Saldo"].

(** A stored row holds the cells of a sheet row as ingestion coerces them:
    the date as its text, the other cells as bound, under upload [uid]. *)
Definition stored_from (uid : Z) (row : string -> Cell)
    (r : FactCapital PyText) : Prop :=
  fc_fecha r = py_str (row "Fecha") /\
  Some (fc_centro r) = adapt (row "Centro") /\
  Some (fc_concepto r) = adapt (row "Concepto") /\
  Some (fc_inicial r) = adapt (row "Inicial") /\
  Some (fc_aportacion r) = adapt (row "Aportación") /\
  Some (fc_retiro r) = adapt (row "Retiro") /\
  Some (fc_rendimiento r) = adapt (row "Rendimiento") /\
  Some (fc_saldo r) = adapt (row "Saldo") /\
  fc_upload_id r = uid.

(** The rows of one upload. *)
Definition rows_of_upload {D : Type} (uid : Z) (rows : list (FactCapital D))
    : list (FactCapital D) :=
  filter (fun r => fc_upload_id r =? uid) rows.

(** The database after both DELETE statements of [delete_upload]. *)
Definition without_upload (uid : Z) (db : DB) : DB :=
  snd (delete_upload_row uid (snd (delete_facts uid db))).

(** A cell the REAL columns store as it is: a number within the signed
    64-bit range, or an empty cell. *)
Definition amount_cell (c : Cell) : bool :=
  match c with
  | CNum q =>
      Qle_bool (inject_Z (- 2 ^ 63)) q && negb (Qle_bool (inject_Z (2 ^ 63)) q)
  | CNaN => true
  | _ => false
  end.

Definition text_cell (c : Cell) : bool :=
  match c with
  | CText _ => true
  | _ => false
  end.

(** A sheet row whose category and subcategory are texts and whose five
    amounts are [amount_cell]s; the date cell is free, since [save_upload]
    stores its text. *)
Definition well_typed (row : string -> Cell) : bool :=
  text_cell (row "Centro") && text_cell (row "Concepto") &&
  forallb (fun h => amount_cell (row h))
    ["Inicial"; "Aportación"; "Retiro"; "Rendimiento"; "Saldo"].

(** A loaded row has the key, the texts, the amounts and the upload of a
    stored row; nothing is said of its date. *)
Definition same_stored_values (s : FactCapital PyText)
    (l : FactCapital (option Timestamp)) : Prop :=
  fc_id l = fc_id s /\ fc_centro l = fc_centro s /\
  fc_concepto l = fc_concepto s /\ fc_inicial l = fc_inicial s /\
  fc_aportacion l = fc_aportacion s /\ fc_retiro l = fc_retiro s /\
  fc_rendimiento l = fc_rendimiento s /\ fc_saldo l = fc_saldo s /\
  fc_upload_id l = fc_upload_id s.

(** The seven columns bound as they are, with their positions in the
    parameter tuple. *)
Definition bound_columns : list (nat * string) :=
  [(2%nat, "Centro"); (3%nat, "Concepto"); (4%nat, "Inicial");
   (5%nat, "Aportación"); (6%nat, "Retiro"); (7%nat, "Rendimiento");
   (8%nat, "Saldo")].

(** The position of the first parameter of a row that [sqlite3] cannot
    bind. *)
Definition first_unbindable (row : string -> Cell) : option nat :=
  option_map fst
    (find (fun ph => match adapt (row (snd ph)) with
                     | None => true
                     | Some _ => false
                     end) bound_columns).

(** A row that is [well_typed] except for cells of a type [sqlite3] cannot
    bind. *)
Definition typed_or_object (row : string -> Cell) : bool :=
  let object c := match c with CObject => true | _ => false end in
  forallb (fun h => text_cell (row h) || object (row h))
    ["Centro"; "Concepto"] &&
  forallb (fun h => amount_cell (row h) || object (row h))
    ["Inicial"; "Aportación"; "Retiro"; "Rendimiento"; "Saldo"].

(* ================================================================== *)
(** * Proofs: sorting *)

Lemma insert_by_perm {A : Type} (leb : A -> A -> bool) (x : A) (l : list A) :
  Permutation (x :: l) (insert_by leb x l).
Proof.
  induction l as [|y l IH]; simpl.
  - apply Permutation_refl.
  - destruct (leb x y).
    + apply Permutation_refl.
    + eapply perm_trans; [apply perm_swap|].
      now apply perm_skip.
Qed.

Lemma sort_by_perm {A : Type} (leb : A -> A -> bool) (l : list A) :
  Permutation l (sort_by leb l).
Proof.
  induction l as [|x l IH]; simpl.
  - apply perm_nil.
  - eapply perm_trans; [apply perm_skip, IH|].
    apply insert_by_perm.
Qed.

Lemma sort_by_nil_inv {A : Type} (leb : A -> A -> bool) (l : list A) :
  sort_by leb l = [] -> l = [].
Proof.
  intros H. apply Permutation_nil. rewrite <- H.
  apply Permutation_sym, sort_by_perm.
Qed.

Section SortValues.

Context {A : Type} (key : A -> Z).

Let asc (a b : A) : Prop := key a <= key b.

Lemma insert_asc_sorted (x : A) (l : list A) :
  Sorted asc l -> Sorted asc (insert_by (fun a b => key a <=? key b) x l).
Proof.
  induction 1 as [|y l Hl IH Hhd]; simpl.
  - repeat constructor.
  - destruct (Z.leb_spec (key x) (key y)) as [Hle|Hgt].
    + constructor; [constructor; assumption|constructor; exact Hle].
    + constructor; [exact IH|].
      destruct l as [|z l]; simpl.
      * constructor. unfold asc. lia.
      * destruct (Z.leb_spec (key x) (key z)).
        -- constructor. unfold asc. lia.
        -- inversion Hhd; subst. constructor. assumption.
Qed.

Lemma sort_values_sorted (l : list A) : Sorted asc (sort_values key l).
Proof.
  unfold sort_values, sort_by.
  induction l as [|x l IH]; simpl.
  - constructor.
  - apply insert_asc_sorted, IH.
Qed.

(** Sorting a frame that is already in date order leaves it as it is. *)
Lemma sort_values_of_sorted (l : list A) :
  Sorted asc l -> sort_values key l = l.
Proof.
  unfold sort_values, sort_by.
  induction 1 as [|x l Hl IH Hhd]; simpl.
  - reflexivity.
  - rewrite IH. destruct Hhd as [|y l Hxy]; simpl.
    + reflexivity.
    + unfold asc in Hxy. destruct (Z.leb_spec (key x) (key y)); [reflexivity|lia].
Qed.

Lemma insert_desc_last (x : A) (l : list A) :
  Forall (fun y => key x < key y) l ->
  insert_by (fun a b => key b <=? key a) x l = l ++ [x].
Proof.
  induction 1 as [|y l Hy Hl IH]; simpl.
  - reflexivity.
  - destruct (Z.leb_spec (key y) (key x)); [lia|]. now rewrite IH.
Qed.

(** Rows stored with strictly increasing keys come back in reverse. *)
Lemma order_by_desc_of_increasing (l : list A) :
  StronglySorted Z.lt (map key l) -> order_by_desc key l = rev l.
Proof.
  unfold order_by_desc, sort_by.
  induction l as [|x l IH]; simpl; intros H.
  - reflexivity.
  - inversion H as [|? ? Hs Hall]; subst.
    rewrite IH by assumption.
    apply insert_desc_last.
    apply Forall_rev. now rewrite Forall_map in Hall.
Qed.

End SortValues.

Lemma asc_strongly_sorted {A : Type} (key : A -> Z) (l : list A) :
  Sorted (fun a b => key a <= key b) l ->
  StronglySorted (fun a b => key a <= key b) l.
Proof.
  apply Sorted_StronglySorted. intros a b c Hab Hbc. lia.
Qed.

(** The first row of a sorted frame is a row of the frame with the least
    key. *)
Lemma sort_values_head {A : Type} (key : A -> Z) (df : list A) (first : A)
    (rest : list A) :
  sort_values key df = first :: rest ->
  In first df /\ forall r, In r df -> key first <= key r.
Proof.
  intros Hs.
  pose proof (sort_by_perm (fun a b => key a <=? key b) df) as Hp.
  fold (sort_values key df) in Hp. rewrite Hs in Hp.
  pose proof (asc_strongly_sorted key _ (sort_values_sorted key df)) as Hsorted.
  rewrite Hs in Hsorted. split.
  - eapply Permutation_in; [apply Permutation_sym, Hp|now left].
  - intros r Hr.
    assert (Hin : In r (first :: rest))
      by (eapply Permutation_in; [exact Hp|exact Hr]).
    destruct Hin as [<- | Hin]; [lia|].
    inversion Hsorted as [|? ? _ Hall]; subst.
    rewrite Forall_forall in Hall. now apply Hall.
Qed.

(* ================================================================== *)
(** * Proofs: the KPI computation *)

Lemma last_map {A B : Type} (f : A -> B) (l : list A) (d : A) :
  last (map f l) (f d) = f (last l d).
Proof.
  revert d. induction l as [|x l IH]; intros d; simpl.
  - reflexivity.
  - destruct l as [|y l]; [reflexivity|]. apply (IH d).
Qed.

Lemma Qgt_bool_true (a b : Q) : Qgt_bool a b = true <-> (b < a)%Q.
Proof.
  unfold Qgt_bool. rewrite negb_true_iff.
  split; intros H.
  - apply Qnot_le_lt. intros Hle. apply Qle_bool_iff in Hle. congruence.
  - destruct (Qle_bool a b) eqn:E; [|reflexivity].
    apply Qle_bool_iff in E. exfalso. eapply Qlt_not_le; eassumption.
Qed.

Lemma Qgt_bool_false (a b : Q) : Qgt_bool a b = false <-> (a <= b)%Q.
Proof.
  unfold Qgt_bool. rewrite negb_false_iff. apply Qle_bool_iff.
Qed.

(** The guarded division of [calculate_kpis] always has a value. *)
Lemma guarded_division (total capital : Q) :
  (if Qgt_bool capital 0 then py_div total capital else Ok 0%Q) =
  Ok (if Qgt_bool capital 0 then (total / capital)%Q else 0%Q).
Proof.
  destruct (Qgt_bool capital 0) eqn:E; [|reflexivity].
  apply Qgt_bool_true in E. unfold py_div.
  destruct (Qeq_bool capital 0) eqn:Z; [|reflexivity].
  apply Qeq_bool_eq in Z. rewrite Z in E. now apply Qlt_irrefl in E.
Qed.

(** The dictionary [calculate_kpis] returns, read off the sorted frame. *)
Lemma calculate_kpis_of_sorted (df : list Measures) (first : Measures)
    (rest : list Measures) :
  sort_values fecha df = first :: rest ->
  calculate_kpis df =
  Ok (mkKpis (inicial first) (saldo (last rest first))
        (col_sum aportacion (first :: rest)) (col_sum retiro (first :: rest))
        (col_sum rendimiento (first :: rest))
        (if Qgt_bool (inicial first) 0
         then (col_sum rendimiento (first :: rest) / inicial first)%Q
         else 0%Q)).
Proof.
  intros Hs. unfold calculate_kpis. rewrite Hs.
  cbn [map iloc_first iloc_last and_then].
  rewrite guarded_division, last_map. reflexivity.
Qed.

Lemma sort_values_cons (df : list Measures) :
  df <> [] -> exists first rest, sort_values fecha df = first :: rest.
Proof.
  intros Hne. destruct (sort_values fecha df) as [|first rest] eqn:E.
  - apply sort_by_nil_inv in E. contradiction.
  - eauto.
Qed.

(** C1.  On a non-empty frame in date order, [calculate_kpis] returns the
    opening balance of the first row, the closing balance of the last row
    and the column sums of contributions, withdrawals and returns over all
    rows; on the three-row ledger shown for category "A" and all
    subcategories the six KPIs are 1000, 1200, 150, 20, 70 and 0.07. *)
Theorem kpis_of_date_sorted_frame :
  (forall (first : Measures) (rest : list Measures),
      Sorted (fun a b => fecha a <= fecha b) (first :: rest) ->
      exists k,
        calculate_kpis (first :: rest) = Ok k /\
        capital_inicial k = inicial first /\
        capital_final k = saldo (last rest first) /\
        aportaciones k = col_sum aportacion (first :: rest) /\
        retiros k = col_sum retiro (first :: rest) /\
        rendimiento_total k = col_sum rendimiento (first :: rest)) /\
  (exists k chart table,
      ledger_page = Ok (Dashboard k chart table) /\
      (capital_inicial k == 1000 /\ capital_final k == 1200 /\
       aportaciones k == 150 /\ retiros k == 20 /\
       rendimiento_total k == 70 /\ rendimiento_pct k == 7 # 100)%Q).
Proof.
  split.
  - intros first rest Hs.
    pose proof (sort_values_of_sorted fecha _ Hs) as Hid.
    eexists. split; [exact (calculate_kpis_of_sorted _ _ _ Hid)|].
    cbn [capital_inicial capital_final aportaciones retiros rendimiento_total].
    repeat split.
  - do 3 eexists. split; [vm_compute; reflexivity|].
    cbn [capital_inicial capital_final aportaciones retiros rendimiento_total
         rendimiento_pct].
    repeat split.
Qed.

Lemma kpis_of_date_sorted_frame_witness :
  let first := mkMeasures jan1 1000 100 0 0 1100 in
  let rest := [mkMeasures jan2 1100 0 20 70 1150;
               mkMeasures jan3 1150 50 0 0 1200] in
  exists k,
    calculate_kpis (first :: rest) = Ok k /\
    capital_inicial k = inicial first /\
    capital_final k = saldo (last rest first) /\
    aportaciones k = col_sum aportacion (first :: rest) /\
    retiros k = col_sum retiro (first :: rest) /\
    rendimiento_total k = col_sum rendimiento (first :: rest).
Proof.
  intros first rest.
  apply (proj1 kpis_of_date_sorted_frame first rest).
  repeat constructor; vm_compute; discriminate.
Defined.

(** C4.  On a non-empty frame [calculate_kpis] returns.  Its opening capital
    is the opening balance of the first row of the frame sorted by date, a
    row of the frame with the earliest date; its total return is the sum of
    the returns of the sorted frame; and its percentage is that total
    divided by that opening balance when the balance is positive, and 0 when
    it is not.  On a frame given in date order these are the first row and
    the column sum of the frame itself.  No frame makes [calculate_kpis]
    raise [ZeroDivisionError]. *)
Theorem return_percent_guarded :
  (forall df : list Measures,
      df <> [] ->
      exists k first rest,
        sort_values fecha df = first :: rest /\
        In first df /\
        (forall r, In r df -> fecha first <= fecha r) /\
        calculate_kpis df = Ok k /\
        capital_inicial k = inicial first /\
        rendimiento_total k = col_sum rendimiento (first :: rest) /\
        ((0 < inicial first)%Q ->
         rendimiento_pct k =
         (col_sum rendimiento (first :: rest) / inicial first)%Q) /\
        ((inicial first <= 0)%Q -> rendimiento_pct k = 0%Q)) /\
  (forall (first : Measures) (rest : list Measures),
      Sorted (fun a b => fecha a <= fecha b) (first :: rest) ->
      exists k,
        calculate_kpis (first :: rest) = Ok k /\
        capital_inicial k = inicial first /\
        rendimiento_total k = col_sum rendimiento (first :: rest) /\
        ((0 < inicial first)%Q ->
         rendimiento_pct k =
         (col_sum rendimiento (first :: rest) / inicial first)%Q) /\
        ((inicial first <= 0)%Q -> rendimiento_pct k = 0%Q)) /\
  (forall df : list Measures, calculate_kpis df <> Raise ZeroDivisionError).
Proof.
  assert (Hpct : forall first rest,
      ((0 < inicial first)%Q ->
       (if Qgt_bool (inicial first) 0
        then (col_sum rendimiento (first :: rest) / inicial first)%Q
        else 0%Q) =
       (col_sum rendimiento (first :: rest) / inicial first)%Q) /\
      ((inicial first <= 0)%Q ->
       (if Qgt_bool (inicial first) 0
        then (col_sum rendimiento (first :: rest) / inicial first)%Q
        else 0%Q) = 0%Q)).
  { intros first rest. split; intros H.
    - apply Qgt_bool_true in H. now rewrite H.
    - apply Qgt_bool_false in H. now rewrite H. }
  assert (Hmain : forall df first rest,
      sort_values fecha df = first :: rest ->
      exists k,
        calculate_kpis df = Ok k /\
        capital_inicial k = inicial first /\
        rendimiento_total k = col_sum rendimiento (first :: rest) /\
        ((0 < inicial first)%Q ->
         rendimiento_pct k =
         (col_sum rendimiento (first :: rest) / inicial first)%Q) /\
        ((inicial first <= 0)%Q -> rendimiento_pct k = 0%Q)).
  { intros df first rest Hs. eexists.
    split; [exact (calculate_kpis_of_sorted df first rest Hs)|].
    cbn [capital_inicial rendimiento_total rendimiento_pct].
    split; [reflexivity|]. split; [reflexivity|]. apply Hpct. }
  split; [|split].
  - intros df Hne.
    destruct (sort_values_cons df Hne) as (first & rest & Hs).
    destruct (Hmain df first rest Hs) as (k & Hk).
    destruct (sort_values_head fecha df first rest Hs) as (Hin & Hmin).
    exists k, first, rest. tauto.
  - intros first rest Hsorted.
    apply Hmain. now apply sort_values_of_sorted.
  - intros [|m df].
    + discriminate.
    + destruct (sort_values_cons (m :: df)) as (first & rest & Hs);
        [discriminate|].
      destruct (Hmain _ first rest Hs) as (k & Hk & _).
      rewrite Hk. discriminate.
Qed.

Lemma return_percent_guarded_witness :
  let late := mkMeasures jan2 1100 0 20 70 1150 in
  let early := mkMeasures jan1 1000 100 0 0 1100 in
  exists k,
    calculate_kpis [late; early] = Ok k /\
    capital_inicial k = 1000%Q /\
    rendimiento_total k = (0 + 0 + 70)%Q /\
    rendimiento_pct k = ((0 + 0 + 70) / 1000)%Q.
Proof.
  intros late early.
  destruct return_percent_guarded as (Hframe & _).
  destruct (Hframe [late; early]) as
    (k & first & rest & Hs & _ & _ & Hk & Hcap & Htot & Hpos & _);
    [discriminate|].
  injection Hs as <- <-.
  exists k. split; [exact Hk|]. split; [exact Hcap|]. split; [exact Htot|].
  apply Hpos. reflexivity.
Defined.

(* ================================================================== *)
(** * Proofs: the filters *)

Lemma filter_twice {A : Type} (f g : A -> bool) (l : list A) :
  filter g (filter f l) = filter (fun x => f x && g x) l.
Proof.
  induction l as [|x l IH]; simpl.
  - reflexivity.
  - destruct (f x); simpl; [destruct (g x)|]; now rewrite IH.
Qed.

Lemma filter_all {A : Type} (f : A -> bool) (l : list A) :
  Forall (fun x => f x = true) l -> filter f l = l.
Proof.
  induction 1 as [|x l Hx Hl IH]; simpl.
  - reflexivity.
  - now rewrite Hx, IH.
Qed.

Lemma selected_spec (centro0 concepto0 : string) (date_start date_end : Z)
    (r : FactRow) :
  selected centro0 concepto0 date_start date_end r = true <->
  spec_keep centro0 concepto0 date_start date_end r.
Proof.
  unfold selected, spec_keep.
  rewrite !andb_true_iff, orb_true_iff, !String.eqb_eq, !Z.leb_le.
  tauto.
Qed.

(** C3.  With a category, a subcategory or the sentinel "Todos", and a date
    range of two dates, the filtered frame is the loaded frame restricted, in
    order and with multiplicity, to the rows whose category is the selected
    one, whose subcategory is the selected one unless the sentinel is
    selected, and whose date lies between both ends, inclusive. *)
Theorem df_filtered_keeps_exactly :
  forall (df : list FactRow) (centro0 concepto0 : string)
         (date_start date_end : Timestamp),
    df_filtered df centro0 concepto0 [date_start; date_end] =
      filter (selected centro0 concepto0 date_start date_end) df /\
    (forall r,
        selected centro0 concepto0 date_start date_end r = true <->
        spec_keep centro0 concepto0 date_start date_end r) /\
    (forall r,
        In r (df_filtered df centro0 concepto0 [date_start; date_end]) <->
        In r df /\ spec_keep centro0 concepto0 date_start date_end r).
Proof.
  intros df centro0 concepto0 date_start date_end.
  assert (Heq : df_filtered df centro0 concepto0 [date_start; date_end] =
                filter (selected centro0 concepto0 date_start date_end) df).
  { unfold df_filtered, selected.
    destruct (String.eqb concepto0 "Todos"); cbn [negb orb].
    - rewrite filter_twice. apply filter_ext. intros r.
      now rewrite andb_true_r.
    - rewrite !filter_twice. apply filter_ext. intros r.
      now rewrite andb_assoc. }
  split; [exact Heq|]. split; [intros r; apply selected_spec|].
  intros r. rewrite Heq, filter_In, selected_spec. reflexivity.
Qed.

(* ================================================================== *)
(** * Proofs: grouping by date *)

Lemma insert_key_In (d : Timestamp) (keys : list Timestamp) (x : Timestamp) :
  In x (insert_key d keys) <-> x = d \/ In x keys.
Proof.
  induction keys as [|k keys IH]; simpl.
  - intuition.
  - destruct (Z.ltb_spec d k); simpl; [intuition|].
    destruct (Z.eqb_spec d k); simpl.
    + subst. intuition.
    + rewrite IH. intuition.
Qed.

Lemma insert_key_increasing (d : Timestamp) (keys : list Timestamp) :
  StronglySorted Z.lt keys -> StronglySorted Z.lt (insert_key d keys).
Proof.
  induction 1 as [|k keys Hs IH Hall]; simpl.
  - repeat constructor.
  - destruct (Z.ltb_spec d k).
    + constructor; [constructor; assumption|].
      constructor; [assumption|].
      eapply Forall_impl; [|exact Hall]. intros; simpl in *; lia.
    + destruct (Z.eqb_spec d k); [constructor; assumption|].
      constructor; [exact IH|].
      apply Forall_forall. intros x Hx.
      apply insert_key_In in Hx. destruct Hx as [->|Hx]; [lia|].
      rewrite Forall_forall in Hall. now apply Hall.
Qed.

Lemma group_keys_In (dates : list Timestamp) (x : Timestamp) :
  In x (group_keys dates) <-> In x dates.
Proof.
  unfold group_keys. induction dates as [|d dates IH]; simpl.
  - reflexivity.
  - rewrite insert_key_In, IH. intuition.
Qed.

Lemma group_keys_increasing (dates : list Timestamp) :
  StronglySorted Z.lt (group_keys dates).
Proof.
  unfold group_keys. induction dates as [|d dates IH]; simpl.
  - constructor.
  - apply insert_key_increasing, IH.
Qed.

Lemma increasing_NoDup (keys : list Z) :
  StronglySorted Z.lt keys -> NoDup keys.
Proof.
  induction 1 as [|k keys Hs IH Hall]; constructor; [|exact IH].
  intros Hin. rewrite Forall_forall in Hall. specialize (Hall _ Hin). lia.
Qed.

Lemma increasing_Sorted {A : Type} (key : A -> Z) (l : list A) :
  StronglySorted Z.lt (map key l) ->
  Sorted (fun a b => key a <= key b) l.
Proof.
  induction l as [|x l IH]; simpl; intros H.
  - constructor.
  - inversion H as [|? ? Hs Hall]; subst.
    constructor; [now apply IH|].
    destruct l as [|y l]; constructor.
    inversion Hall; subst. lia.
Qed.

Lemma groupby_fecha_sum_keys (df : list FactRow) :
  map fecha (groupby_fecha_sum df) =
  group_keys (map (fun r : FactRow => fecha r) df).
Proof.
  unfold groupby_fecha_sum. rewrite map_map. apply map_id.
Qed.

Lemma df_plot_dates (g : Frame) :
  map fst (df_plot g) = map fecha (sort_values fecha (kpi_columns g)).
Proof.
  unfold df_plot. now rewrite map_map.
Qed.

(** C2.  With the sentinel "Todos" and a non-empty filtered frame,
    [df_grouped] is the frame grouped by date: it has one row for each date
    of the filtered frame and no other, no date twice, and each row carries
    the five sums over the filtered rows of its date; the chart series is
    that frame projected on date and closing balance, in strictly ascending
    date order without duplicates; and equal inputs of a run give equal
    pages. *)
Theorem todos_groups_by_date :
  forall filtered : list FactRow,
    filtered <> [] ->
    let g := groupby_fecha_sum filtered in
    df_grouped "Todos" filtered = Aggregated g /\
    g <> [] /\
    (forall d, In d (map fecha g) <->
               In d (map (fun r : FactRow => fecha r) filtered)) /\
    NoDup (map fecha g) /\
    Forall (fun m =>
              let rows := map measures (group_of filtered (fecha m)) in
              inicial m = col_sum inicial rows /\
              aportacion m = col_sum aportacion rows /\
              retiro m = col_sum retiro rows /\
              rendimiento m = col_sum rendimiento rows /\
              saldo m = col_sum saldo rows) g /\
    df_plot (Aggregated g) = map (fun m => (fecha m, saldo m)) g /\
    StronglySorted Z.lt (map fst (df_plot (Aggregated g))) /\
    NoDup (map fst (df_plot (Aggregated g))) /\
    (forall df df' centro0 centro0' date_range date_range',
        df = df' -> centro0 = centro0' -> date_range = date_range' ->
        run_script df centro0 "Todos" date_range =
        run_script df' centro0' "Todos" date_range').
Proof.
  intros filtered Hne g.
  assert (Hkeys : map fecha g =
                  group_keys (map (fun r : FactRow => fecha r) filtered))
    by apply groupby_fecha_sum_keys.
  assert (Hinc : StronglySorted Z.lt (map fecha g))
    by (rewrite Hkeys; apply group_keys_increasing).
  assert (Hid : sort_values fecha g = g)
    by (apply sort_values_of_sorted, increasing_Sorted, Hinc).
  assert (Hdates : map fst (df_plot (Aggregated g)) = map fecha g)
    by (rewrite df_plot_dates; cbn [kpi_columns]; now rewrite Hid).
  split; [reflexivity|]. split.
  { intros Hg. destruct filtered as [|r filtered]; [now apply Hne|].
    assert (Hin : In (fecha r) (map fecha g)).
    { rewrite Hkeys. apply group_keys_In. now left. }
    rewrite Hg in Hin. exact Hin. }
  split; [intros d; rewrite Hkeys; apply group_keys_In|].
  split; [now apply increasing_NoDup|].
  split.
  { apply Forall_forall. intros m Hm. unfold g, groupby_fecha_sum in Hm.
    apply in_map_iff in Hm. destruct Hm as (d & <- & _).
    cbn. repeat split. }
  split; [unfold df_plot; cbn [kpi_columns]; now rewrite Hid|].
  split; [now rewrite Hdates|].
  split; [rewrite Hdates; now apply increasing_NoDup|].
  intros; subst; reflexivity.
Qed.

Lemma todos_groups_by_date_witness :
  let filtered :=
    [mkFactRow 1 "A" "X" 1 (mkMeasures jan2 1100 0 20 70 1150);
     mkFactRow 2 "A" "Y" 1 (mkMeasures jan1 500 10 0 0 510);
     mkFactRow 3 "A" "X" 1 (mkMeasures jan1 1000 100 0 0 1100)] in
  df_grouped "Todos" filtered = Aggregated (groupby_fecha_sum filtered) /\
  df_plot (Aggregated (groupby_fecha_sum filtered)) =
    [(jan1, 0 + 510 + 1100); (jan2, 0 + 1150)]%Q.
Proof.
  intros filtered.
  pose proof (todos_groups_by_date filtered) as H.
  split.
  - apply H. discriminate.
  - reflexivity.
Defined.

(* ================================================================== *)
(** * Proofs: statements and transactions *)

Lemma tick_cases (c : Conn) :
  tick c = (Raise OperationalError, c) \/
  exists b, tick c = (Ok tt, mkConn (disk c) (txn c) b).
Proof.
  unfold tick. destruct c as [d w [[|n]|]]; simpl; eauto.
Qed.

Lemma tick_no_fault (c : Conn) :
  budget c = None -> tick c = (Ok tt, c).
Proof.
  unfold tick. intros ->. reflexivity.
Qed.

Lemma execute_cases {A : Type} (stmt : DB -> A * DB) (c : Conn) :
  execute stmt c = (Raise OperationalError, c) \/
  exists b,
    execute stmt c =
    (Ok (fst (stmt (txn c))), mkConn (disk c) (snd (stmt (txn c))) b).
Proof.
  unfold execute, bind.
  destruct (tick_cases c) as [-> | [b ->]]; [now left|right].
  exists b. cbn. now destruct (stmt (txn c)).
Qed.

Lemma execute_no_fault {A : Type} (stmt : DB -> A * DB) (c : Conn) :
  budget c = None ->
  execute stmt c =
  (Ok (fst (stmt (txn c))), mkConn (disk c) (snd (stmt (txn c))) None).
Proof.
  intros Hb. unfold execute, bind. rewrite (tick_no_fault c Hb), Hb.
  now destruct (stmt (txn c)).
Qed.

Lemma commit_cases (c : Conn) :
  commit c = (Raise OperationalError, c) \/
  exists b, commit c = (Ok tt, mkConn (txn c) (txn c) b).
Proof.
  unfold commit, bind.
  destruct (tick_cases c) as [-> | [b ->]]; [now left|right]. eauto.
Qed.


Lemma execute_pending {A : Type} (stmt : DB -> A * DB) :
  pending_only (execute stmt).
Proof.
  intros c. destruct (execute_cases stmt c) as [-> | [b ->]]; reflexivity.
Qed.

Lemma lift_pending {A : Type} (r : Result A) : pending_only (lift r).
Proof. intros c. reflexivity. Qed.

Lemma ret_pending {A : Type} (a : A) : pending_only (ret a).
Proof. intros c. reflexivity. Qed.

Lemma bind_pending {A B : Type} (m : Sql A) (k : A -> Sql B) :
  pending_only m -> (forall a, pending_only (k a)) -> pending_only (bind m k).
Proof.
  intros Hm Hk c. unfold bind. specialize (Hm c).
  destruct (m c) as [[a|e] c1]; simpl in *.
  - now rewrite Hk.
  - exact Hm.
Qed.

Lemma for_each_pending {A : Type} (l : list A) (body : A -> Sql unit) :
  (forall x, pending_only (body x)) -> pending_only (for_each l body).
Proof.
  intros Hb. induction l as [|x l IH]; simpl.
  - apply ret_pending.
  - apply bind_pending; [apply Hb|intros _; exact IH].
Qed.

Lemma pending_clean {A : Type} (m : Sql A) :
  pending_only m -> clean_on_raise m.
Proof. intros H c e _. apply H. Qed.

Lemma commit_clean : clean_on_raise commit.
Proof.
  intros c e. destruct (commit_cases c) as [-> | [b ->]]; simpl.
  - reflexivity.
  - discriminate.
Qed.

Lemma bind_clean {A B : Type} (m : Sql A) (k : A -> Sql B) :
  pending_only m -> (forall a, clean_on_raise (k a)) ->
  clean_on_raise (bind m k).
Proof.
  intros Hm Hk c e. unfold bind. specialize (Hm c).
  destruct (m c) as [[a|e1] c1]; simpl in *.
  - intros H. rewrite (Hk a c1 e H). exact Hm.
  - intros _. exact Hm.
Qed.

Lemma insert_row_pending (df : DataFrame) (uid : Z) (row : string -> Cell) :
  pending_only (insert_row df uid row).
Proof.
  unfold insert_row.
  apply bind_pending; [apply lift_pending|intros p].
  apply bind_pending; [apply lift_pending|intros b].
  apply execute_pending.
Qed.

Lemma save_upload_body_clean (file : UploadedFile) (now : string) :
  clean_on_raise (save_upload_body file now).
Proof.
  unfold save_upload_body.
  apply bind_clean; [apply execute_pending|intros uid].
  apply bind_clean; [apply lift_pending|intros df].
  apply bind_clean; [|intros _; apply commit_clean].
  apply for_each_pending. intros row. apply insert_row_pending.
Qed.

Lemma delete_upload_body_clean (uid : Z) :
  clean_on_raise (delete_upload_body uid).
Proof.
  unfold delete_upload_body.
  apply bind_clean; [apply execute_pending|intros _].
  apply bind_clean; [apply execute_pending|intros _].
  apply commit_clean.
Qed.

Lemma with_connection_clean {A : Type} (m : Sql A) (faults : option nat)
    (db : DB) (e : Exn) :
  clean_on_raise m ->
  fst (with_connection faults m db) = Raise e ->
  snd (with_connection faults m db) = db.
Proof.
  unfold with_connection. intros Hm.
  specialize (Hm (mkConn db db faults) e).
  destruct (m (mkConn db db faults)) as [r c]; simpl in *. exact Hm.
Qed.

(** C10.  When [save_upload] raises, whatever the file, the clock, the
    database and the point of failure, the commit has not happened and
    [data.db] is what it was: the uploads, the facts and both key counters.
    In particular a sheet without the "Fecha" column and with a data row
    makes it raise [KeyError] after the INSERT into [uploads], and neither
    that upload nor any fact is visible afterwards. *)
Theorem save_upload_raise_leaves_db :
  (forall (faults : option nat) (file : UploadedFile) (now : string)
          (db : DB) (e : Exn),
      fst (save_upload faults file now db) = Raise e ->
      snd (save_upload faults file now db) = db /\
      get_uploads (snd (save_upload faults file now db)) = get_uploads db /\
      forall parse,
        load_data parse (snd (save_upload faults file now db)) =
        load_data parse db) /\
  (let file := mkUploadedFile "sin_fecha.xlsx"
                 (Some (sheet ["Centro"; "Saldo"] [[CText "A"; CNum 10]])) in
   save_upload None file "2024-01-04T09:00:00" empty_db =
   (Raise (KeyError "Fecha"), empty_db)).
Proof.
  split.
  - intros faults file now db e H.
    pose proof (with_connection_clean _ faults db e
                  (save_upload_body_clean file now) H) as Hdb.
    unfold save_upload in *. rewrite Hdb. repeat split.
  - reflexivity.
Qed.

Lemma save_upload_raise_leaves_db_witness :
  snd (save_upload (Some 2%nat) ledger_file "2024-01-04T09:00:00" empty_db) =
  empty_db.
Proof.
  apply (proj1 save_upload_raise_leaves_db (Some 2%nat) ledger_file
           "2024-01-04T09:00:00" empty_db OperationalError).
  reflexivity.
Defined.

(* ================================================================== *)
(** * Proofs: deleting an upload *)

Lemma delete_upload_cases (faults : option nat) (uid : Z) (db : DB) :
  delete_upload faults uid db = (Ok tt, without_upload uid db) \/
  delete_upload faults uid db = (Raise OperationalError, db).
Proof.
  destruct faults as [[|[|[|n]]]|]; cbn; auto.
Qed.


Lemma load_data_eq (parse : PyText -> option (option Timestamp)) (db : DB) :
  load_data parse db = map_result (convert_fecha parse) (fact_capital db).
Proof.
  unfold load_data. now destruct (fact_capital db).
Qed.



Lemma map_result_Forall2 {A B : Type} (f : A -> Result B) (l : list A)
    (l' : list B) :
  map_result f l = Ok l' <-> Forall2 (fun x y => f x = Ok y) l l'.
Proof.
  revert l'. induction l as [|x l IH]; simpl; intros l'.
  - split.
    + intros [= <-]. constructor.
    + inversion 1. reflexivity.
  - split.
    + destruct (f x) as [y|e] eqn:Hx; simpl; [|discriminate].
      destruct (map_result f l) as [ys|e] eqn:Hl; simpl; [|discriminate].
      intros [= <-]. constructor; [exact Hx|now apply IH].
    + inversion 1 as [|? y ? ys Hx Hl]; subst.
      rewrite Hx. simpl. apply IH in Hl. rewrite Hl. reflexivity.
Qed.

Lemma filter_none {A : Type} (p : A -> bool) (l : list A) :
  Forall (fun x => p x = false) l -> filter p l = [].
Proof.
  induction 1 as [|x l Hx Hl IH]; simpl.
  - reflexivity.
  - now rewrite Hx.
Qed.




(* ================================================================== *)
(** * Proofs: ingestion *)

Lemma and_then_ok {A B : Type} (r : Result A) (k : A -> Result B) (b : B) :
  and_then r k = Ok b -> exists a, r = Ok a /\ k a = Ok b.
Proof.
  destruct r as [a|e]; simpl; [eauto|discriminate].
Qed.

Lemma getitem_ok (df : DataFrame) (row : string -> Cell) (key : string)
    (v : Cell) :
  getitem df row key = Ok v -> v = row key.
Proof.
  unfold getitem. destruct (existsb _ _); [|discriminate].
  now intros [= <-].
Qed.

Lemma getitem_present (df : DataFrame) (row : string -> Cell) (key : string) :
  In key (columns df) -> getitem df row key = Ok (row key).
Proof.
  intros Hin. unfold getitem.
  assert (H : existsb (String.eqb key) (columns df) = true).
  { apply existsb_exists. exists key. split; [exact Hin|apply String.eqb_refl]. }
  now rewrite H.
Qed.

(** The parameter tuple holds the cells under the eight labels. *)
Lemma fact_params_ok (df : DataFrame) (row : string -> Cell) (uid : Z)
    (p : FactParams) :
  fact_params df row uid = Ok p ->
  p = mkFactParams (py_str (row "Fecha")) (row "Centro") (row "Concepto")
        (row "Inicial") (row "Aportación") (row "Retiro")
        (row "Rendimiento") (row "Saldo") uid.
Proof.
  unfold fact_params. intros H.
  repeat (apply and_then_ok in H;
          let v := fresh "v" in
          let Hv := fresh "Hv" in
          destruct H as (v & Hv & H); apply getitem_ok in Hv; subst v).
  now injection H as <-.
Qed.

Lemma fact_params_total (df : DataFrame) (row : string -> Cell) (uid : Z) :
  has_columns df ->
  fact_params df row uid =
  Ok (mkFactParams (py_str (row "Fecha")) (row "Centro") (row "Concepto")
        (row "Inicial") (row "Aportación") (row "Retiro")
        (row "Rendimiento") (row "Saldo") uid).
Proof.
  unfold has_columns, expected_columns. intros H.
  repeat match goal with
         | H : Forall _ (_ :: _) |- _ => inversion H; subst; clear H
         end.
  unfold fact_params.
  rewrite !getitem_present by assumption. reflexivity.
Qed.

Lemma bind_param_ok (pos : nat) (c : Cell) (v : SqlValue) :
  bind_param pos c = Ok v -> Some v = adapt c.
Proof.
  unfold bind_param. destruct (adapt c); [|discriminate].
  now intros [= <-].
Qed.

Lemma bind_param_total (pos : nat) (c : Cell) :
  adapt c <> None -> exists v, bind_param pos c = Ok v.
Proof.
  unfold bind_param. destruct (adapt c); [eauto|congruence].
Qed.

Lemma bind_params_ok (p : FactParams) (bound : Z -> FactCapital PyText) :
  bind_params p = Ok bound ->
  forall key,
    fc_id (bound key) = key /\
    fc_fecha (bound key) = p_fecha p /\
    Some (fc_centro (bound key)) = adapt (p_centro p) /\
    Some (fc_concepto (bound key)) = adapt (p_concepto p) /\
    Some (fc_inicial (bound key)) = adapt (p_inicial p) /\
    Some (fc_aportacion (bound key)) = adapt (p_aportacion p) /\
    Some (fc_retiro (bound key)) = adapt (p_retiro p) /\
    Some (fc_rendimiento (bound key)) = adapt (p_rendimiento p) /\
    Some (fc_saldo (bound key)) = adapt (p_saldo p) /\
    fc_upload_id (bound key) = p_upload_id p.
Proof.
  unfold bind_params. intros H key.
  repeat (apply and_then_ok in H;
          let v := fresh "v" in
          let Hv := fresh "Hv" in
          destruct H as (v & Hv & H); apply bind_param_ok in Hv).
  injection H as <-. cbn. repeat split; assumption.
Qed.

Lemma bind_params_total (p : FactParams) :
  adapt (p_centro p) <> None -> adapt (p_concepto p) <> None ->
  adapt (p_inicial p) <> None -> adapt (p_aportacion p) <> None ->
  adapt (p_retiro p) <> None -> adapt (p_rendimiento p) <> None ->
  adapt (p_saldo p) <> None ->
  exists bound, bind_params p = Ok bound.
Proof.
  intros H1 H2 H3 H4 H5 H6 H7. unfold bind_params.
  destruct (bind_param_total 2 _ H1) as [v1 ->].
  destruct (bind_param_total 3 _ H2) as [v2 ->].
  destruct (bind_param_total 4 _ H3) as [v3 ->].
  destruct (bind_param_total 5 _ H4) as [v4 ->].
  destruct (bind_param_total 6 _ H5) as [v5 ->].
  destruct (bind_param_total 7 _ H6) as [v6 ->].
  destruct (bind_param_total 8 _ H7) as [v7 ->].
  cbn. eauto.
Qed.

(** What one turn of the loop does to the connection. *)
Lemma insert_row_cases (df : DataFrame) (uid : Z) (row : string -> Cell)
    (c : Conn) :
  (exists e, insert_row df uid row c = (Raise e, c)) \/
  (exists bound b,
      (p <~ fact_params df row uid ;; bind_params p) = Ok bound /\
      insert_row df uid row c =
      (Ok tt, mkConn (disk c) (snd (insert_fact bound (txn c))) b)).
Proof.
  unfold insert_row, bind, lift.
  destruct (fact_params df row uid) as [p|e]; simpl; [|eauto].
  destruct (bind_params p) as [bound|e]; simpl; [|eauto].
  destruct (execute_cases (insert_fact bound) c) as [-> | [b ->]]; [eauto|].
  right. exists bound, b. split; reflexivity.
Qed.

Lemma stored_row_spec (df : DataFrame) (uid : Z) (row : string -> Cell)
    (bound : Z -> FactCapital PyText) (key : Z) :
  (p <~ fact_params df row uid ;; bind_params p) = Ok bound ->
  stored_from uid row (bound key).
Proof.
  intros H. apply and_then_ok in H. destruct H as (p & Hp & Hb).
  apply fact_params_ok in Hp.
  destruct (bind_params_ok p bound Hb key) as (_ & H).
  subst p. exact H.
Qed.

Lemma extends_refl (uid : Z) (c : Conn) : extends uid c c.
Proof.
  repeat split. exists []. split; [now rewrite app_nil_r|constructor].
Qed.

Lemma extends_trans (uid : Z) (c1 c2 c3 : Conn) :
  extends uid c1 c2 -> extends uid c2 c3 -> extends uid c1 c3.
Proof.
  intros (Hd1 & Hu1 & Hs1 & n1 & Hf1 & Hn1) (Hd2 & Hu2 & Hs2 & n2 & Hf2 & Hn2).
  repeat split; try congruence.
  exists (n1 ++ n2). split.
  - now rewrite Hf2, Hf1, app_assoc.
  - apply Forall_app. now split.
Qed.

Lemma insert_row_extends (df : DataFrame) (uid : Z) (row : string -> Cell)
    (c : Conn) :
  extends uid c (snd (insert_row df uid row c)).
Proof.
  destruct (insert_row_cases df uid row c) as [[e ->] | (bound & b & Hb & ->)].
  - apply extends_refl.
  - cbn. repeat split.
    exists [bound (seq_fact_capital (txn c) + 1)]. split; [reflexivity|].
    constructor; [|constructor].
    now destruct (stored_row_spec df uid row bound
                    (seq_fact_capital (txn c) + 1) Hb)
      as (_ & _ & _ & _ & _ & _ & _ & _ & ?).
Qed.

Lemma for_each_insert_extends (df : DataFrame) (uid : Z)
    (rows : list (string -> Cell)) (c : Conn) :
  extends uid c (snd (for_each rows (insert_row df uid) c)).
Proof.
  revert c. induction rows as [|row rows IH]; intros c; simpl.
  - apply extends_refl.
  - unfold bind.
    pose proof (insert_row_extends df uid row c) as H1.
    destruct (insert_row df uid row c) as [[[]|e] c1]; simpl in *.
    + eapply extends_trans; [exact H1|apply IH].
    + exact H1.
Qed.

(** When the loop completes, it has appended one stored row for each row of
    the sheet, in order. *)
Lemma for_each_insert_ok (df : DataFrame) (uid : Z)
    (rows : list (string -> Cell)) (c c' : Conn) :
  for_each rows (insert_row df uid) c = (Ok tt, c') ->
  exists new,
    fact_capital (txn c') = fact_capital (txn c) ++ new /\
    Forall2 (stored_from uid) rows new.
Proof.
  revert c. induction rows as [|row rows IH]; intros c; simpl.
  - intros [= <-]. exists []. split; [now rewrite app_nil_r|constructor].
  - unfold bind.
    destruct (insert_row_cases df uid row c)
      as [[e ->] | (bound & b & Hb & ->)]; [discriminate|].
    intros H. apply IH in H. destruct H as (new & Hf & Hnew).
    exists (bound (seq_fact_capital (txn c) + 1) :: new). split.
    + rewrite Hf. cbn. now rewrite <- app_assoc.
    + constructor; [|exact Hnew]. eapply stored_row_spec, Hb.
Qed.

Lemma insert_row_no_fault (df : DataFrame) (uid : Z) (row : string -> Cell)
    (c : Conn) :
  has_columns df -> bindable row -> budget c = None ->
  exists bound,
    insert_row df uid row c =
    (Ok tt, mkConn (disk c) (snd (insert_fact bound (txn c))) None).
Proof.
  intros Hcols Hrow Hb. unfold insert_row, bind, lift.
  rewrite (fact_params_total df row uid Hcols).
  unfold bindable in Hrow.
  repeat match goal with
         | H : Forall _ (_ :: _) |- _ => inversion H; subst; clear H
         end.
  edestruct bind_params_total as [bound ->]; cbn; try eassumption.
  exists bound. now rewrite execute_no_fault.
Qed.

Lemma for_each_insert_no_fault (df : DataFrame) (uid : Z)
    (rows : list (string -> Cell)) (c : Conn) :
  has_columns df -> Forall bindable rows -> budget c = None ->
  exists c',
    for_each rows (insert_row df uid) c = (Ok tt, c') /\ budget c' = None.
Proof.
  intros Hcols Hrows. revert c.
  induction Hrows as [|row rows Hrow Hrows IH]; intros c Hb; simpl.
  - exists c. split; [reflexivity|exact Hb].
  - unfold bind.
    destruct (insert_row_no_fault df uid row c Hcols Hrow Hb) as [bound ->].
    apply IH. reflexivity.
Qed.

(** What [save_upload] leaves in [data.db]: nothing new, or the new upload
    with rows that carry its key. *)
Lemma save_upload_cases (faults : option nat) (file : UploadedFile)
    (now : string) (db : DB) :
  let db' := snd (save_upload faults file now db) in
  ((exists e, fst (save_upload faults file now db) = Raise e) /\ db' = db) \/
  (fst (save_upload faults file now db) = Ok tt /\
   uploads db' =
     uploads db ++ [mkUpload (seq_uploads db + 1) (name file) now] /\
   seq_uploads db' = seq_uploads db + 1 /\
   exists df new,
     workbook file = Some df /\
     fact_capital db' = fact_capital db ++ new /\
     Forall (fun r => fc_upload_id r = seq_uploads db + 1) new /\
     Forall2 (stored_from (seq_uploads db + 1)) (iterrows df) new).
Proof.
  unfold save_upload, with_connection, save_upload_body, bind.
  destruct (execute_cases (insert_upload (name file) now)
              (mkConn db db faults)) as [-> | [b ->]];
    [left; split; [eexists|]; reflexivity|].
  cbn [fst snd txn disk insert_upload lift].
  unfold read_excel.
  destruct (workbook file) as [df|];
    [|left; split; [eexists|]; reflexivity].
  set (uid := seq_uploads db + 1).
  set (c1 := mkConn db _ b).
  pose proof (for_each_insert_extends df uid (iterrows df) c1) as Hext.
  pose proof (for_each_insert_ok df uid (iterrows df) c1) as Hok.
  destruct (for_each (iterrows df) (insert_row df uid) c1) as [[[]|e] c2];
    cbn [fst snd] in Hext;
    destruct Hext as (Hd & Hu & Hs & new & Hf & Hnew); cbv beta iota.
  - destruct (commit_cases c2) as [-> | [b2 ->]];
      [left; split; [eexists; reflexivity|exact Hd]|].
    right. cbn [fst snd disk].
    split; [reflexivity|].
    split; [exact Hu|]. split; [exact Hs|].
    destruct (Hok c2 eq_refl) as (new' & Hf' & Hnew').
    exists df, new'. split; [reflexivity|]. split; [exact Hf'|].
    split; [|exact Hnew'].
    rewrite Hf in Hf'. apply app_inv_head in Hf'. now subst new'.
  - left. split; [eexists; reflexivity|exact Hd].
Qed.

(* ================================================================== *)
(** * Proofs: the databases the program produces *)

Lemma consistent_empty : consistent empty_db.
Proof. repeat split; constructor. Qed.

Lemma increasing_snoc (l : list Z) (x : Z) :
  StronglySorted Z.lt l -> Forall (fun y => y < x) l ->
  StronglySorted Z.lt (l ++ [x]).
Proof.
  induction 1 as [|y l Hs IH Hall]; intros Hlt; simpl.
  - repeat constructor.
  - inversion Hlt; subst. constructor; [now apply IH|].
    apply Forall_app. split; [exact Hall|]. now constructor.
Qed.

Lemma increasing_filter {A : Type} (key : A -> Z) (p : A -> bool)
    (l : list A) :
  StronglySorted Z.lt (map key l) ->
  StronglySorted Z.lt (map key (filter p l)).
Proof.
  induction l as [|x l IH]; simpl; intros H; [constructor|].
  inversion H as [|? ? Hs Hall]; subst.
  destruct (p x); simpl; [|now apply IH].
  constructor; [now apply IH|].
  rewrite Forall_map in *. rewrite Forall_forall in *.
  intros y Hy. apply filter_In in Hy. now apply Hall.
Qed.

Lemma consistent_save (faults : option nat) (file : UploadedFile)
    (now : string) (db : DB) :
  consistent db -> consistent (snd (save_upload faults file now db)).
Proof.
  intros (Hs & Hle & Hfk).
  destruct (save_upload_cases faults file now db)
    as [[_ ->] | (_ & Hu & Hseq & df & new & _ & Hf & Hnew & _)];
    [now repeat split|].
  unfold consistent. rewrite Hu, Hseq, Hf, map_app. cbn [map upload_id].
  split; [|split].
  - apply increasing_snoc; [exact Hs|].
    rewrite Forall_map. eapply Forall_impl; [|exact Hle].
    intros u Hu'. simpl in Hu'. lia.
  - apply Forall_app. split.
    + eapply Forall_impl; [|exact Hle]. intros u Hu'. simpl in Hu'. lia.
    + constructor; [cbn; lia|constructor].
  - apply Forall_app. split.
    + eapply Forall_impl; [|exact Hfk]. intros r Hr. simpl in Hr.
      apply in_or_app. now left.
    + eapply Forall_impl; [|exact Hnew]. intros r Hr. simpl in Hr.
      apply in_or_app. right. rewrite Hr. now left.
Qed.

Lemma consistent_without (uid : Z) (db : DB) :
  consistent db -> consistent (without_upload uid db).
Proof.
  intros (Hs & Hle & Hfk). unfold consistent, without_upload. cbn.
  split; [|split].
  - now apply increasing_filter.
  - rewrite Forall_forall in *. intros u Hu. apply filter_In in Hu.
    now apply Hle.
  - rewrite Forall_forall in *. intros r Hr. apply filter_In in Hr.
    destruct Hr as (Hr & Hne).
    apply negb_true_iff, Z.eqb_neq in Hne.
    specialize (Hfk r Hr). apply in_map_iff in Hfk.
    destruct Hfk as (u & Hu & Hin). apply in_map_iff. exists u.
    split; [exact Hu|]. apply filter_In. split; [exact Hin|].
    apply negb_true_iff, Z.eqb_neq. congruence.
Qed.

Lemma reachable_consistent (db : DB) : reachable db -> consistent db.
Proof.
  induction 1 as [|db faults file now _ IH|db faults uid _ IH].
  - apply consistent_empty.
  - now apply consistent_save.
  - destruct (delete_upload_cases faults uid db) as [-> | ->]; simpl.
    + now apply consistent_without.
    + exact IH.
Qed.

Lemma without_upload_absent (uid : Z) (db : DB) :
  consistent db -> ~ In uid (map upload_id (uploads db)) ->
  without_upload uid db = db.
Proof.
  intros (_ & _ & Hfk) Hout. unfold without_upload.
  destruct db as [ups facts su sf]. cbn in *. f_equal.
  - apply filter_all, Forall_forall. intros u Hu.
    apply negb_true_iff, Z.eqb_neq. intros <-.
    apply Hout, in_map, Hu.
  - apply filter_all. eapply Forall_impl; [|exact Hfk].
    intros r Hr. simpl in Hr. apply negb_true_iff, Z.eqb_neq.
    intros <-. now apply Hout.
Qed.

(** C8.  In every database the program produces, [get_uploads] returns all
    rows of [uploads], each once, in the reverse of the order in which they
    were recorded; and an upload that has just been saved comes before all
    the uploads that were there. *)
Theorem get_uploads_newest_first :
  forall db : DB,
    reachable db ->
    get_uploads db = rev (uploads db) /\
    Permutation (uploads db) (get_uploads db) /\
    (forall faults file now,
        fst (save_upload faults file now db) = Ok tt ->
        get_uploads (snd (save_upload faults file now db)) =
        mkUpload (seq_uploads db + 1) (name file) now :: get_uploads db).
Proof.
  intros db Hdb.
  assert (Hrev : forall d, reachable d -> get_uploads d = rev (uploads d)).
  { intros d Hd. apply order_by_desc_of_increasing.
    now destruct (reachable_consistent d Hd). }
  split; [now apply Hrev|].
  split; [apply sort_by_perm|].
  intros faults file now Hok.
  rewrite (Hrev _ (reach_save db faults file now Hdb)), (Hrev db Hdb).
  destruct (save_upload_cases faults file now db)
    as [[[e He] _] | (_ & Hu & _)]; [congruence|].
  rewrite Hu, rev_app_distr. reflexivity.
Qed.

Lemma get_uploads_newest_first_witness :
  let db := replay [Upload_file None ledger_file "2024-01-04T09:00:00";
                    Upload_file None text_amount_file "2024-01-05T09:00:00";
                    Upload_file None undated_file "2024-01-06T09:00:00"]
              empty_db in
  get_uploads db = rev (uploads db) /\
  map upload_id (get_uploads db) = [3; 2; 1] /\
  map filename (get_uploads db) =
    ["undated.xlsx"; "text_amount.xlsx"; "ledger.xlsx"].
Proof.
  intros db.
  assert (Hdb : reachable db) by (repeat apply reach_save; apply reach_init).
  destruct (get_uploads_newest_first db Hdb) as (Hrev & _).
  split; [exact Hrev|]. split; reflexivity.
Defined.

(** C9.  In every database the program produces, [delete_upload] with a key
    that no upload carries changes nothing: it returns without raising when
    no statement faults, and whatever the faults both tables and both
    counters are what they were, so [get_uploads] returns the same list. *)
Theorem delete_absent_upload_noop :
  forall (db : DB) (uid : Z),
    reachable db ->
    ~ In uid (map upload_id (uploads db)) ->
    delete_upload None uid db = (Ok tt, db) /\
    (forall faults,
        snd (delete_upload faults uid db) = db /\
        get_uploads (snd (delete_upload faults uid db)) = get_uploads db).
Proof.
  intros db uid Hdb Hout.
  pose proof (without_upload_absent uid db (reachable_consistent db Hdb) Hout)
    as Hsame.
  split.
  - destruct (delete_upload_cases None uid db) as [H | H].
    + now rewrite H, Hsame.
    + discriminate H.
  - intros faults.
    destruct (delete_upload_cases faults uid db) as [-> | ->]; cbn [snd];
      rewrite ?Hsame; split; reflexivity.
Qed.

Lemma delete_absent_upload_noop_witness :
  let db := snd (save_upload None ledger_file "2024-01-04T09:00:00"
                   empty_db) in
  delete_upload None 7 db = (Ok tt, db).
Proof.
  intros db.
  assert (Hdb : reachable db) by apply reach_save, reach_init.
  assert (Hout : ~ In 7 (map upload_id (uploads db)))
    by (vm_compute; intros [H | []]; discriminate H).
  destruct (delete_absent_upload_noop db 7 Hdb Hout) as (Hnoop & _).
  exact Hnoop.
Defined.

(* ================================================================== *)
(** * Proofs: the round trip through the store *)




Lemma has_columns_sheet (rows : list (list Cell)) :
  has_columns (sheet expected_columns rows).
Proof.
  unfold has_columns. apply Forall_forall. intros h Hh. exact Hh.
Qed.

Lemma convert_fecha_same (parse : PyText -> option (option Timestamp))
    (s : FactCapital PyText) (l : FactCapital (option Timestamp)) :
  convert_fecha parse s = Ok l -> same_stored_values s l.
Proof.
  unfold convert_fecha.
  destruct (to_datetime parse (fc_fecha s)) as [d|e]; [|discriminate].
  intros [= <-]. repeat split.
Qed.

Lemma amount_cell_bindable (c : Cell) :
  amount_cell c = true -> adapt c <> None.
Proof. destruct c; simpl; discriminate. Qed.

Lemma text_cell_bindable (c : Cell) :
  text_cell c = true -> adapt c <> None.
Proof. destruct c; simpl; discriminate. Qed.

Lemma well_typed_bindable (row : string -> Cell) :
  well_typed row = true -> bindable row.
Proof.
  unfold well_typed, bindable. cbn [forallb].
  rewrite !andb_true_iff.
  intros ((Hc & Hk) & Hi & Ha & Hw & Hy & Hs & _).
  repeat constructor;
    solve [now apply text_cell_bindable | now apply amount_cell_bindable].
Qed.




(* ================================================================== *)
(** * Proofs: faults of ingestion *)





(* ================================================================== *)
(** * Further properties of the store *)

Lemma bound_row_keys (df : DataFrame) (uid : Z) (row : string -> Cell)
    (bound : Z -> FactCapital PyText) :
  (p <~ fact_params df row uid ;; bind_params p) = Ok bound ->
  forall key, fc_id (bound key) = key.
Proof.
  intros H key. apply and_then_ok in H. destruct H as (p & _ & Hb).
  now destruct (bind_params_ok p bound Hb key).
Qed.

(** A property of the pending transaction that every INSERT of a fact row
    keeps is kept by the whole loop. *)
Lemma for_each_insert_txn (P : DB -> Prop) (df : DataFrame) (uid : Z)
    (rows : list (string -> Cell)) (c : Conn) :
  (forall bound d,
      (forall key, fc_id (bound key) = key) ->
      P d -> P (snd (insert_fact bound d))) ->
  P (txn c) -> P (txn (snd (for_each rows (insert_row df uid) c))).
Proof.
  intros Hstep. revert c.
  induction rows as [|row rows IH]; intros c Hc; simpl; [exact Hc|].
  unfold bind.
  destruct (insert_row_cases df uid row c)
    as [[e ->] | (bound & b & Hb & ->)]; [exact Hc|].
  apply IH. cbn [txn]. apply Hstep; [|exact Hc].
  eapply bound_row_keys, Hb.
Qed.

(** A property of the database that both INSERT statements keep is kept by
    [save_upload], whatever its outcome. *)
Lemma save_upload_keeps (P : DB -> Prop) (faults : option nat)
    (file : UploadedFile) (now : string) (db : DB) :
  (forall fname stamp d, P d -> P (snd (insert_upload fname stamp d))) ->
  (forall bound d,
      (forall key, fc_id (bound key) = key) ->
      P d -> P (snd (insert_fact bound d))) ->
  P db -> P (snd (save_upload faults file now db)).
Proof.
  intros Hup Hfact Hdb.
  unfold save_upload, with_connection, save_upload_body, bind.
  destruct (execute_cases (insert_upload (name file) now)
              (mkConn db db faults)) as [-> | [b ->]]; [exact Hdb|].
  cbn [fst snd txn disk lift].
  unfold read_excel.
  destruct (workbook file) as [df|]; [|exact Hdb].
  set (uid := fst _). set (c1 := mkConn db _ b).
  pose proof (for_each_insert_txn P df uid (iterrows df) c1 Hfact) as Htxn.
  pose proof (for_each_pending (iterrows df) (insert_row df uid)
                (insert_row_pending df uid) c1) as Hdisk.
  destruct (for_each (iterrows df) (insert_row df uid) c1) as [[[]|e] c2];
    cbn [fst snd] in *; cbv beta iota.
  - destruct (commit_cases c2) as [-> | [b2 ->]]; cbn [snd disk].
    + now rewrite Hdisk.
    + apply Htxn. unfold c1. cbn [txn]. now apply Hup.
  - cbn [snd]. now rewrite Hdisk.
Qed.

Lemma increasing_bounded_snoc (l : list Z) (top x : Z) :
  StronglySorted Z.lt l -> Forall (fun y => y <= top) l -> top < x ->
  StronglySorted Z.lt (l ++ [x]).
Proof.
  intros Hs Hb Hx. apply increasing_snoc; [exact Hs|].
  eapply Forall_impl; [|exact Hb]. intros y Hy. simpl in Hy. lia.
Qed.

(** Fact keys grow with every INSERT and stay below the counter. *)
Lemma reachable_fact_keys (db : DB) :
  reachable db ->
  StronglySorted Z.lt (map fc_id (fact_capital db)) /\
  Forall (fun k => k <= seq_fact_capital db) (map fc_id (fact_capital db)).
Proof.
  induction 1 as [|db faults file now _ IH|db faults uid _ IH].
  - split; constructor.
  - apply (save_upload_keeps
             (fun d => StronglySorted Z.lt (map fc_id (fact_capital d)) /\
                       Forall (fun k => k <= seq_fact_capital d)
                         (map fc_id (fact_capital d)))); [| |exact IH].
    + intros fname stamp d Hd. exact Hd.
    + intros bound d Hkey (Hs & Hb). cbn. rewrite map_app. cbn [map].
      rewrite Hkey. split.
      * eapply increasing_bounded_snoc; [exact Hs|exact Hb|lia].
      * apply Forall_app. split.
        -- eapply Forall_impl; [|exact Hb]. intros k Hk. simpl in Hk. lia.
        -- constructor; [lia|constructor].
  - destruct (delete_upload_cases faults uid db) as [-> | ->];
      [|exact IH].
    destruct IH as (Hs & Hb). unfold without_upload. cbn. split.
    + now apply increasing_filter.
    + rewrite Forall_map in *. rewrite Forall_forall in *.
      intros r Hr. apply filter_In in Hr. now apply Hb.
Qed.

Lemma NoDup_map_injective {A B : Type} (f : A -> B) (l : list A) (a b : A) :
  NoDup (map f l) -> In a l -> In b l -> f a = f b -> a = b.
Proof.
  induction l as [|x l IH]; simpl; intros Hnd Ha Hb Hab; [contradiction|].
  inversion Hnd as [|? ? Hx Hl]; subst.
  destruct Ha as [<- | Ha], Hb as [<- | Hb].
  - reflexivity.
  - exfalso. apply Hx. rewrite Hab. now apply in_map.
  - exfalso. apply Hx. rewrite <- Hab. now apply in_map.
  - now apply IH.
Qed.

(** X1.  In every database the program produces, no two uploads share a key,
    no two fact rows share a key, and every fact row belongs to exactly one
    upload of the table. *)
Theorem store_referential_integrity :
  forall db : DB,
    reachable db ->
    NoDup (map upload_id (uploads db)) /\
    NoDup (map fc_id (fact_capital db)) /\
    (forall r, In r (fact_capital db) ->
       exists u, In u (uploads db) /\ upload_id u = fc_upload_id r /\
                 forall u', In u' (uploads db) ->
                            upload_id u' = fc_upload_id r -> u' = u).
Proof.
  intros db Hdb.
  destruct (reachable_consistent db Hdb) as (Hs & _ & Hfk).
  destruct (reachable_fact_keys db Hdb) as (Hfs & _).
  pose proof (increasing_NoDup _ Hs) as Hnd.
  split; [exact Hnd|]. split; [now apply increasing_NoDup|].
  intros r Hr. rewrite Forall_forall in Hfk. specialize (Hfk r Hr).
  apply in_map_iff in Hfk. destruct Hfk as (u & Hu & Hin).
  exists u. split; [exact Hin|]. split; [exact Hu|].
  intros u' Hin' Hu'.
  apply (NoDup_map_injective upload_id (uploads db)); congruence.
Qed.

Lemma store_referential_integrity_witness :
  let db := snd (save_upload None ledger_file "2024-01-04T09:00:00"
                   empty_db) in
  NoDup (map fc_id (fact_capital db)).
Proof.
  intros db.
  assert (Hdb : reachable db) by apply reach_save, reach_init.
  destruct (store_referential_integrity db Hdb) as (_ & Hnd & _).
  exact Hnd.
Defined.

Lemma perform_reachable (a : Action) (db : DB) :
  reachable db -> reachable (perform a db).
Proof.
  intros Hdb. destruct a as [faults file now|faults uid]; simpl.
  - now apply reach_save.
  - now apply reach_delete.
Qed.

(** One action: the counter of upload keys does not go down, and an upload
    of the table afterwards was there before, unchanged, or has a key above
    the counter as it was. *)
Lemma perform_uploads (a : Action) (db : DB) :
  seq_uploads db <= seq_uploads (perform a db) /\
  forall u, In u (uploads (perform a db)) ->
            In u (uploads db) \/ seq_uploads db < upload_id u.
Proof.
  destruct a as [faults file now|faults uid]; simpl.
  - destruct (save_upload_cases faults file now db)
      as [[_ ->] | (_ & Hu & Hseq & _)].
    + split; [lia|auto].
    + rewrite Hu, Hseq. split; [lia|].
      intros u Hin. apply in_app_or in Hin.
      destruct Hin as [Hin | [<- | []]]; [now left|right; cbn; lia].
  - destruct (delete_upload_cases faults uid db) as [-> | ->]; simpl.
    + split; [lia|]. intros u Hin. apply filter_In in Hin. now left.
    + split; [lia|auto].
Qed.

Lemma replay_uploads (history : list Action) (db : DB) :
  seq_uploads db <= seq_uploads (replay history db) /\
  forall u, In u (uploads (replay history db)) ->
            In u (uploads db) \/ seq_uploads db < upload_id u.
Proof.
  revert db. induction history as [|a history IH]; intros db; simpl.
  - split; [lia|auto].
  - destruct (perform_uploads a db) as (Hseq & Hstep).
    destruct (IH (perform a db)) as (Hseq' & Hrest).
    split; [lia|].
    intros u Hin. destruct (Hrest u Hin) as [Hold | Hnew].
    + apply Hstep in Hold. destruct Hold; auto.
    + right. lia.
Qed.

(** X2.  Whatever the user does afterwards, the rows of [uploads] are never
    changed, only removed or added, every upload added later gets a key
    larger than all keys handed out so far, and a key that is free again
    after a delete is never given to another upload. *)
Theorem upload_keys_never_reused :
  forall (db : DB) (history : list Action),
    reachable db ->
    let db' := replay history db in
    seq_uploads db <= seq_uploads db' /\
    (forall u, In u (uploads db') ->
               In u (uploads db) \/ seq_uploads db < upload_id u) /\
    (forall uid, uid <= seq_uploads db ->
                 ~ In uid (map upload_id (uploads db)) ->
                 ~ In uid (map upload_id (uploads db'))).
Proof.
  intros db history Hdb db'.
  destruct (replay_uploads history db) as (Hseq & Hups).
  split; [exact Hseq|]. split; [exact Hups|].
  intros uid Hle Hfree Hin. apply in_map_iff in Hin.
  destruct Hin as (u & Hu & Hin).
  destruct (Hups u Hin) as [Hold | Hnew].
  - apply Hfree. rewrite <- Hu. now apply in_map.
  - lia.
Qed.

Lemma upload_keys_never_reused_witness :
  let db := replay [Upload_file None ledger_file "2024-01-04T09:00:00";
                    Delete_upload None 1] empty_db in
  let db' := replay [Upload_file None ledger_file "2024-01-05T09:00:00"] db in
  ~ In 1 (map upload_id (uploads db')) /\
  map upload_id (uploads db') = [2].
Proof.
  intros db db'.
  assert (Hdb : reachable db).
  { apply (perform_reachable (Delete_upload None 1)).
    apply (perform_reachable
             (Upload_file None ledger_file "2024-01-04T09:00:00")).
    apply reach_init. }
  destruct (upload_keys_never_reused db
              [Upload_file None ledger_file "2024-01-05T09:00:00"] Hdb)
    as (_ & _ & Hfree).
  split.
  - apply Hfree.
    + vm_compute. discriminate.
    + vm_compute. intros [].
  - reflexivity.
Defined.

Lemma rows_of_upload_app {D : Type} (uid : Z) (l l' : list (FactCapital D)) :
  rows_of_upload uid (l ++ l') = rows_of_upload uid l ++ rows_of_upload uid l'.
Proof. apply filter_app. Qed.

(** X3.  [save_upload] only appends: whatever its outcome, the uploads and
    fact rows that were stored are still there, unchanged and in place,
    everything appended carries the new key, and the rows of every other
    upload are what they were. *)
Theorem save_upload_only_appends :
  forall (db : DB) (faults : option nat) (file : UploadedFile) (now : string),
    let db' := snd (save_upload faults file now db) in
    exists ups new,
      uploads db' = uploads db ++ ups /\
      fact_capital db' = fact_capital db ++ new /\
      Forall (fun u => upload_id u = seq_uploads db + 1) ups /\
      Forall (fun r => fc_upload_id r = seq_uploads db + 1) new /\
      forall uid, uid <> seq_uploads db + 1 ->
                  rows_of_upload uid (fact_capital db') =
                  rows_of_upload uid (fact_capital db).
Proof.
  intros db faults file now. cbv zeta.
  destruct (save_upload_cases faults file now db)
    as [[_ H] | (_ & Hu & _ & df & new & _ & Hf & Hnew & _)].
  - exists [], []. rewrite H, !app_nil_r. repeat split; constructor.
  - exists [mkUpload (seq_uploads db + 1) (name file) now], new.
    split; [exact Hu|]. split; [exact Hf|].
    split; [now repeat constructor|]. split; [exact Hnew|].
    intros uid Hne. rewrite Hf, rows_of_upload_app.
    unfold rows_of_upload at 2. rewrite filter_none, app_nil_r; [reflexivity|].
    eapply Forall_impl; [|exact Hnew]. intros r Hr. simpl in Hr.
    apply Z.eqb_neq. congruence.
Qed.

Lemma filter_rev_comm {A : Type} (p : A -> bool) (l : list A) :
  filter p (rev l) = rev (filter p l).
Proof.
  induction l as [|x l IH]; simpl; [reflexivity|].
  rewrite filter_app, IH. simpl. destruct (p x); simpl.
  - reflexivity.
  - now rewrite app_nil_r.
Qed.

Lemma rows_of_other_upload {D : Type} (uid other : Z)
    (l : list (FactCapital D)) :
  other <> uid ->
  rows_of_upload other (filter (fun r => negb (fc_upload_id r =? uid)) l) =
  rows_of_upload other l.
Proof.
  intros Hne. unfold rows_of_upload. rewrite filter_twice.
  apply filter_ext. intros r.
  destruct (Z.eqb_spec (fc_upload_id r) other) as [-> | _].
  - rewrite andb_true_r. apply negb_true_iff, Z.eqb_neq, Hne.
  - apply andb_false_r.
Qed.

(** X4.  Deleting an upload leaves the others alone: whatever the outcome,
    the rows of every other upload are what they were, and when the delete
    succeeds on a database the program produced, [get_uploads] returns the
    list it returned before without that upload, in the same order. *)
Theorem delete_upload_keeps_others :
  forall (db : DB) (faults : option nat) (uid : Z),
    reachable db ->
    let db' := snd (delete_upload faults uid db) in
    (forall other, other <> uid ->
        rows_of_upload other (fact_capital db') =
        rows_of_upload other (fact_capital db)) /\
    (fst (delete_upload faults uid db) = Ok tt ->
     get_uploads db' =
     filter (fun u => negb (upload_id u =? uid)) (get_uploads db)).
Proof.
  intros db faults uid Hdb db'.
  assert (Hrev : forall d, reachable d -> get_uploads d = rev (uploads d)).
  { intros d Hd. apply order_by_desc_of_increasing.
    now destruct (reachable_consistent d Hd). }
  pose proof (Hrev _ (reach_delete db faults uid Hdb)) as Hafter.
  fold db' in Hafter. unfold db' in *.
  destruct (delete_upload_cases faults uid db) as [H | H]; rewrite H in *;
    cbn [fst snd] in *.
  - split.
    + intros other Hne. unfold without_upload. cbn.
      now apply rows_of_other_upload.
    + intros _. rewrite Hafter, (Hrev db Hdb), filter_rev_comm. reflexivity.
  - split; [reflexivity|discriminate].
Qed.

Lemma delete_upload_keeps_others_witness :
  let db := replay [Upload_file None ledger_file "2024-01-04T09:00:00";
                    Upload_file None text_amount_file "2024-01-05T09:00:00"]
              empty_db in
  rows_of_upload 1 (fact_capital (snd (delete_upload None 2 db))) =
  rows_of_upload 1 (fact_capital db).
Proof.
  intros db.
  assert (Hdb : reachable db).
  { apply (perform_reachable
             (Upload_file None text_amount_file "2024-01-05T09:00:00")).
    apply (perform_reachable
             (Upload_file None ledger_file "2024-01-04T09:00:00")).
    apply reach_init. }
  destruct (delete_upload_keeps_others db None 2 Hdb) as (Hrows & _).
  apply Hrows. discriminate.
Defined.

Lemma filter_idem {A : Type} (p : A -> bool) (l : list A) :
  filter p (filter p l) = filter p l.
Proof.
  rewrite filter_twice. apply filter_ext. intros x. now destruct (p x).
Qed.

(** X5.  Deleting the same upload a second time changes nothing more; and
    deleting an upload right after it was saved gives back both tables as
    they were before the save, with only the key counters moved on. *)
Theorem delete_again_and_undo_save :
  (forall (db : DB) (uid : Z),
      delete_upload None uid (snd (delete_upload None uid db)) =
      (Ok tt, snd (delete_upload None uid db))) /\
  (forall (db : DB) (file : UploadedFile) (now : string),
      reachable db ->
      fst (save_upload None file now db) = Ok tt ->
      let saved := snd (save_upload None file now db) in
      let undone := snd (delete_upload None (seq_uploads db + 1) saved) in
      uploads undone = uploads db /\
      fact_capital undone = fact_capital db /\
      seq_uploads undone = seq_uploads db + 1).
Proof.
  split.
  - intros db uid.
    destruct (delete_upload_cases None uid db) as [H | H];
      [|discriminate H].
    rewrite H. cbn [snd].
    destruct (delete_upload_cases None uid (without_upload uid db))
      as [H2 | H2]; [|discriminate H2].
    rewrite H2. f_equal. unfold without_upload. cbn.
    now rewrite !filter_idem.
  - intros db file now Hdb Hok saved undone.
    destruct (reachable_consistent db Hdb) as (_ & Hle & Hfk).
    destruct (save_upload_cases None file now db)
      as [[[e He] _] | (_ & Hu & Hseq & df & new & _ & Hf & Hnew & _)];
      [congruence|]. fold saved in Hu, Hseq, Hf.
    unfold undone.
    destruct (delete_upload_cases None (seq_uploads db + 1) saved)
      as [H | H]; [|discriminate H].
    rewrite H. unfold without_upload. cbn. rewrite Hu, Hf, Hseq.
    rewrite !filter_app. split; [|split; [|reflexivity]].
    + rewrite filter_all. 
      * cbn. rewrite Z.eqb_refl. cbn. apply app_nil_r.
      * eapply Forall_impl; [|exact Hle]. intros u Hu'. simpl in Hu'.
        apply negb_true_iff, Z.eqb_neq. lia.
    + rewrite filter_all, filter_none; [apply app_nil_r| |].
      * eapply Forall_impl; [|exact Hnew]. intros r Hr. simpl in Hr.
        apply negb_false_iff, Z.eqb_eq, Hr.
      * rewrite Forall_forall in *. intros r Hr.
        apply negb_true_iff, Z.eqb_neq.
        specialize (Hfk r Hr). apply in_map_iff in Hfk.
        destruct Hfk as (u & Hu' & Hin). specialize (Hle u Hin).
        simpl in Hle. lia.
Qed.

Lemma delete_again_and_undo_save_witness :
  let saved := snd (save_upload None ledger_file "2024-01-04T09:00:00"
                      empty_db) in
  let undone := snd (delete_upload None (seq_uploads empty_db + 1) saved) in
  uploads undone = uploads empty_db /\
  fact_capital undone = fact_capital empty_db /\
  seq_uploads undone = seq_uploads empty_db + 1.
Proof.
  destruct delete_again_and_undo_save as (_ & Hundo).
  apply (Hundo empty_db ledger_file "2024-01-04T09:00:00").
  - apply reach_init.
  - reflexivity.
Defined.

(* ================================================================== *)
(** * Further properties of the report *)

Lemma groupby_nil_iff (df : list FactRow) :
  groupby_fecha_sum df = [] <-> df = [].
Proof.
  split.
  - intros H. destruct df as [|r df]; [reflexivity|].
    assert (Hin : In (fecha r) (map fecha (groupby_fecha_sum (r :: df)))).
    { rewrite groupby_fecha_sum_keys. apply group_keys_In. now left. }
    rewrite H in Hin. contradiction.
  - now intros ->.
Qed.

Lemma frame_empty_iff (concepto0 : string) (filtered : list FactRow) :
  frame_empty (df_grouped concepto0 filtered) = true <-> filtered = [].
Proof.
  unfold frame_empty, df_grouped.
  destruct (String.eqb concepto0 "Todos"); cbn [kpi_columns].
  - destruct (groupby_fecha_sum filtered) eqn:E.
    + apply groupby_nil_iff in E. now split.
    + split; [discriminate|]. intros ->. discriminate.
  - destruct filtered; cbn; split; congruence.
Qed.

Lemma calculate_kpis_returns (df : list Measures) :
  df <> [] -> exists k, calculate_kpis df = Ok k.
Proof.
  intros Hne. destruct (sort_values_cons df Hne) as (first & rest & Hs).
  rewrite (calculate_kpis_of_sorted df first rest Hs). eauto.
Qed.

(** X6.  [calculate_kpis] raises [IndexError] on an empty frame, and the
    report part of the script never calls it on one.  For a loaded frame
    with the expected column types and a category and subcategory that the
    selectboxes offer, that part (the filters, the grouping, the check of
    [df_grouped.empty], the KPIs and the chart) ends without an exception:
    with the notice that nothing matches exactly when the filters keep no
    row, and otherwise with the KPIs and the chart of a non-empty table.
    With nothing loaded the script stops before the filters. *)
Theorem report_guards_empty_frame :
  calculate_kpis [] = Raise IndexError /\
  (forall centro0 concepto0 date_range,
      run_script [] centro0 concepto0 date_range = Ok NoFacts) /\
  (forall (df : list FactRow) (centro0 concepto0 : string)
          (date_range : list Timestamp),
      In centro0 (centro_options df) ->
      In concepto0 (concepto_options df centro0) ->
      let table :=
        df_grouped concepto0 (df_filtered df centro0 concepto0 date_range) in
      exists page,
        run_script df centro0 concepto0 date_range = Ok page /\
        (page = NoMatch <->
         df_filtered df centro0 concepto0 date_range = []) /\
        (page <> NoMatch ->
         kpi_columns table <> [] /\
         exists kpis,
           calculate_kpis (kpi_columns table) = Ok kpis /\
           page = Dashboard kpis (df_plot table) table)).
Proof.
  split; [reflexivity|]. split; [reflexivity|].
  intros df centro0 concepto0 date_range Hc _ table.
  destruct df as [|r df].
  { exfalso. exact Hc. }
  unfold run_script.
  set (filtered := df_filtered (r :: df) centro0 concepto0 date_range) in *.
  fold table.
  destruct (frame_empty table) eqn:E.
  - apply frame_empty_iff in E. exists NoMatch.
    split; [reflexivity|]. split; [tauto|]. intros H. now elim H.
  - assert (Hne : filtered <> []).
    { intros H. apply (frame_empty_iff concepto0) in H.
      fold table in H. congruence. }
    assert (Hcols : kpi_columns table <> []).
    { unfold frame_empty in E.
      destruct (kpi_columns table); [discriminate|discriminate]. }
    destruct (calculate_kpis_returns _ Hcols) as [k Hk].
    rewrite Hk. cbn [and_then]. eexists. split; [reflexivity|].
    split; [split; [discriminate|contradiction]|].
    intros _. split; [exact Hcols|]. exists k. now split.
Qed.

Lemma report_guards_empty_frame_witness :
  let df :=
    [mkFactRow 1 "B" "X" 1 (mkMeasures jan2 1100 0 20 70 1150);
     mkFactRow 2 "A" "Y" 1 (mkMeasures jan1 500 10 0 0 510)] in
  exists page,
    run_script df "A" "Y" [jan2; jan3] = Ok page /\
    (page = NoMatch <-> df_filtered df "A" "Y" [jan2; jan3] = []).
Proof.
  intros df.
  destruct report_guards_empty_frame as (_ & _ & H).
  destruct (H df "A" "Y" [jan2; jan3]) as (page & Hrun & Hiff & _).
  - vm_compute. now left.
  - vm_compute. right. now left.
  - exists page. now split.
Defined.

(** Two date-ordered frames with the same rows, no date twice, are the same
    frame. *)
Lemma sorted_frames_equal {A : Type} (key : A -> Z) (l l' : list A) :
  StronglySorted (fun a b => key a <= key b) l ->
  StronglySorted (fun a b => key a <= key b) l' ->
  Permutation l l' -> NoDup (map key l) -> l = l'.
Proof.
  intros Hl. revert l'.
  induction Hl as [|x l Hs IH Hx]; intros l' Hl' Hp Hnd.
  - apply Permutation_nil in Hp. now subst.
  - destruct Hl' as [|y l' Hs' Hy].
    + apply Permutation_sym, Permutation_nil in Hp. discriminate.
    + assert (Hxy : x = y).
      { assert (Hin_y : In y (x :: l))
          by (eapply Permutation_in; [apply Permutation_sym, Hp|now left]).
        assert (Hin_x : In x (y :: l'))
          by (eapply Permutation_in; [exact Hp|now left]).
        destruct Hin_y as [Heq | Hin_y]; [exact Heq|].
        destruct Hin_x as [Heq | Hin_x]; [now symmetry|].
        rewrite Forall_forall in Hx, Hy.
        pose proof (Hx y Hin_y) as H1. pose proof (Hy x Hin_x) as H2.
        simpl in H1, H2.
        apply (NoDup_map_injective key (x :: l)); [exact Hnd|now left| |lia].
        now right. }
      subst y. f_equal. apply IH; [exact Hs'| |now inversion Hnd].
      eapply Permutation_cons_inv, Hp.
Qed.

Lemma sort_values_perm_unique {A : Type} (key : A -> Z) (l l' : list A) :
  Permutation l l' -> NoDup (map key l) ->
  sort_values key l = sort_values key l'.
Proof.
  intros Hp Hnd. apply (sorted_frames_equal key).
  - apply asc_strongly_sorted, sort_values_sorted.
  - apply asc_strongly_sorted, sort_values_sorted.
  - eapply perm_trans; [apply Permutation_sym, sort_by_perm|].
    eapply perm_trans; [exact Hp|apply sort_by_perm].
  - eapply Permutation_NoDup; [|exact Hnd].
    apply Permutation_map, sort_by_perm.
Qed.

(** X8.  When no two rows of a frame have the same date, the KPIs and the
    chart do not depend on the order in which the rows are stored. *)
Theorem kpis_ignore_row_order :
  forall df df' : list Measures,
    Permutation df df' ->
    NoDup (map fecha df) ->
    calculate_kpis df = calculate_kpis df' /\
    df_plot (Aggregated df) = df_plot (Aggregated df').
Proof.
  intros df df' Hp Hnd.
  pose proof (sort_values_perm_unique fecha df df' Hp Hnd) as Hs.
  unfold calculate_kpis, df_plot. cbn [kpi_columns]. now rewrite Hs.
Qed.

Lemma kpis_ignore_row_order_witness :
  let a := mkMeasures jan1 1000 100 0 0 1100 in
  let b := mkMeasures jan2 1100 0 20 70 1150 in
  calculate_kpis [b; a] = calculate_kpis [a; b].
Proof.
  intros a b.
  apply (kpis_ignore_row_order [b; a] [a; b]).
  - apply perm_swap.
  - repeat constructor; simpl; intuition discriminate.
Defined.

Lemma increasing_head_least (k : Z) (keys : list Z) :
  StronglySorted Z.lt (k :: keys) -> forall d, In d (k :: keys) -> k <= d.
Proof.
  intros H d [<- | Hd]; [lia|].
  inversion H as [|? ? _ Hall]; subst.
  rewrite Forall_forall in Hall. specialize (Hall d Hd). lia.
Qed.

Lemma last_cons_default {A : Type} (x d : A) (l : list A) :
  last (x :: l) d = last l x.
Proof.
  revert x d. induction l as [|y l IH]; intros x d.
  - reflexivity.
  - change (last (x :: y :: l) d) with (last (y :: l) d).
    now rewrite (IH y d), (IH y x).
Qed.

Lemma increasing_last_greatest (keys : list Z) (k : Z) :
  StronglySorted Z.lt (k :: keys) ->
  forall d, In d (k :: keys) -> d <= last keys k.
Proof.
  revert k. induction keys as [|k' keys IH]; intros k H d Hd.
  - destruct Hd as [<- | []]. simpl. lia.
  - inversion H as [|? ? Hs Hall]; subst.
    rewrite last_cons_default.
    destruct Hd as [<- | Hd].
    + inversion Hall as [|? ? Hk _]; subst.
      specialize (IH k' Hs k' (or_introl eq_refl)). lia.
    + now apply IH.
Qed.

(** X9.  With "Todos" the opening capital is the sum of the opening balances
    of the rows of the earliest date the filters keep, and the closing
    capital is the sum of the closing balances of the rows of the latest
    date. *)
Theorem todos_opening_and_closing :
  forall filtered : list FactRow,
    filtered <> [] ->
    exists k earliest latest,
      calculate_kpis (kpi_columns (df_grouped "Todos" filtered)) = Ok k /\
      In earliest (map (fun r : FactRow => fecha r) filtered) /\
      In latest (map (fun r : FactRow => fecha r) filtered) /\
      (forall r : FactRow, In r filtered -> earliest <= fecha r <= latest) /\
      capital_inicial k =
        col_sum inicial (map measures (group_of filtered earliest)) /\
      capital_final k =
        col_sum saldo (map measures (group_of filtered latest)).
Proof.
  intros filtered Hne.
  change (df_grouped "Todos" filtered)
    with (Aggregated (groupby_fecha_sum filtered)).
  cbn [kpi_columns].
  pose proof (groupby_fecha_sum_keys filtered) as Hkeys.
  pose proof (group_keys_increasing
                (map (fun r : FactRow => fecha r) filtered)) as Hinc.
  rewrite <- Hkeys in Hinc.
  pose proof (sort_values_of_sorted fecha _ (increasing_Sorted fecha _ Hinc))
    as Hid.
  destruct (groupby_fecha_sum filtered) as [|first rest] eqn:Hg.
  { apply groupby_nil_iff in Hg. contradiction. }
  assert (Hmem : forall d, In d (map fecha (first :: rest)) <->
                           In d (map (fun r : FactRow => fecha r) filtered)).
  { intros d. rewrite Hkeys. apply group_keys_In. }
  assert (Hrow : forall m, In m (first :: rest) ->
             inicial m =
               col_sum inicial (map measures (group_of filtered (fecha m))) /\
             saldo m =
               col_sum saldo (map measures (group_of filtered (fecha m)))).
  { intros m Hm. rewrite <- Hg in Hm. unfold groupby_fecha_sum in Hm.
    apply in_map_iff in Hm. destruct Hm as (d & <- & _). now split. }
  exists (mkKpis (inicial first) (saldo (last rest first))
            (col_sum aportacion (first :: rest))
            (col_sum retiro (first :: rest))
            (col_sum rendimiento (first :: rest))
            (if Qgt_bool (inicial first) 0
             then (col_sum rendimiento (first :: rest) / inicial first)%Q
             else 0%Q)),
         (fecha first), (fecha (last rest first)).
  split; [now apply calculate_kpis_of_sorted|].
  assert (Hlast_in : In (last rest first) (first :: rest)).
  { clear. revert first. induction rest as [|x rest IH]; intros first.
    - now left.
    - rewrite last_cons_default. right. apply IH. }
  split; [apply Hmem; now left|].
  split; [apply Hmem, in_map, Hlast_in|].
  split.
  - intros r Hr.
    assert (Hd : In (fecha r) (map fecha (first :: rest)))
      by (apply Hmem, (in_map (fun r : FactRow => fecha r)), Hr).
    cbn [map] in Hinc, Hd. split.
    + now apply (increasing_head_least _ _ Hinc).
    + rewrite <- (last_map fecha).
      now apply (increasing_last_greatest _ _ Hinc).
  - cbn [capital_inicial capital_final]. split.
    + apply Hrow. now left.
    + apply Hrow, Hlast_in.
Qed.

Lemma todos_opening_and_closing_witness :
  let filtered :=
    [mkFactRow 1 "A" "X" 1 (mkMeasures jan2 1100 0 20 70 1150);
     mkFactRow 2 "A" "Y" 1 (mkMeasures jan1 500 10 0 0 510);
     mkFactRow 3 "A" "X" 1 (mkMeasures jan1 1000 100 0 0 1100)] in
  exists k,
    calculate_kpis (kpi_columns (df_grouped "Todos" filtered)) = Ok k /\
    (capital_inicial k == 1500 /\ capital_final k == 1150)%Q.
Proof.
  intros filtered.
  destruct (todos_opening_and_closing filtered) as (k & d0 & d1 & Hk & _);
    [discriminate|].
  exists k. split; [exact Hk|].
  vm_compute in Hk. injection Hk as <-. split; reflexivity.
Defined.

(** X10.  For every frame, aggregated or not, the chart has exactly one point
    (date, closing balance) for each row of the table, and its dates are in
    ascending order. *)
Theorem chart_points_in_date_order :
  forall g : Frame,
    Permutation (map (fun m => (fecha m, saldo m)) (kpi_columns g))
      (df_plot g) /\
    List.length (df_plot g) = List.length (kpi_columns g) /\
    Sorted Z.le (map fst (df_plot g)).
Proof.
  intros g. unfold df_plot. split; [|split].
  - apply Permutation_map, sort_by_perm.
  - rewrite length_map. symmetry.
    apply Permutation_length, sort_by_perm.
  - rewrite map_map. cbn [fst].
    pose proof (sort_values_sorted fecha (kpi_columns g)) as Hs.
    induction Hs as [|m l _ IH Hhd]; cbn [map]; constructor; [exact IH|].
    destruct Hhd; cbn [map]; constructor. assumption.
Qed.

(* ================================================================== *)
(** * Further properties of loading *)

(** X11.  [load_data] returns an empty frame for an empty table, and
    whenever it returns it gives one row for each stored row, in table
    order, with the same key, category, subcategory, amounts and upload key:
    only the date column is converted. *)
Theorem load_data_row_by_row :
  forall (parse : PyText -> option (option Timestamp)) (db : DB),
    (fact_capital db = [] -> load_data parse db = Ok []) /\
    (forall loaded,
        load_data parse db = Ok loaded ->
        List.length loaded = List.length (fact_capital db) /\
        map fc_id loaded = map fc_id (fact_capital db) /\
        Forall2 same_stored_values (fact_capital db) loaded).
Proof.
  intros parse db. split.
  - unfold load_data. now intros ->.
  - intros loaded H. rewrite load_data_eq in H.
    apply map_result_Forall2 in H.
    assert (Hsame : Forall2 same_stored_values (fact_capital db) loaded).
    { eapply Forall2_impl; [|exact H]. intros s0 l0.
      apply convert_fecha_same. }
    split; [symmetry; eapply Forall2_length, Hsame|].
    split; [|exact Hsame].
    clear H. induction Hsame as [|x y l l' Hxy _ IH]; cbn [map];
      [reflexivity|].
    destruct Hxy as (Hid & _). now rewrite Hid, IH.
Qed.

(* ================================================================== *)
(** * Further properties of the sidebar *)

Lemma unique_In (l : list string) (x : string) :
  In x (unique l) <-> In x l.
Proof.
  induction l as [|y l IH]; simpl; [reflexivity|].
  rewrite filter_In, IH, negb_true_iff, String.eqb_neq.
  destruct (String.eqb_spec y x) as [-> | Hne]; [tauto|].
  split; [tauto|]. intros [H | H]; [tauto|]. right. split; [exact H|].
  congruence.
Qed.

Lemma NoDup_filter {A : Type} (p : A -> bool) (l : list A) :
  NoDup l -> NoDup (filter p l).
Proof.
  induction 1 as [|x l Hx Hl IH]; simpl; [constructor|].
  destruct (p x); [|exact IH].
  constructor; [|exact IH]. intros H. apply filter_In in H. tauto.
Qed.

Lemma unique_NoDup (l : list string) : NoDup (unique l).
Proof.
  induction l as [|x l IH]; simpl; constructor.
  - intros H. apply filter_In in H. destruct H as (_ & H).
    now rewrite String.eqb_refl in H.
  - now apply NoDup_filter.
Qed.

Lemma filter_nonempty {A : Type} (p : A -> bool) (l : list A) (x : A) :
  In x l -> p x = true -> filter p l <> [].
Proof.
  intros Hin Hp H.
  assert (Hx : In x (filter p l)) by (apply filter_In; now split).
  rewrite H in Hx. contradiction.
Qed.

(** X12.  The category selectbox offers exactly the categories of the loaded
    frame, each once; the subcategory selectbox offers "Todos" and exactly
    the subcategories that occur with the selected category; and every
    choice the two boxes offer keeps at least one row before the date
    filter applies. *)
Theorem sidebar_offers_what_is_loaded :
  forall df : list FactRow,
    (forall c, In c (centro_options df) <-> In c (map centro df)) /\
    NoDup (centro_options df) /\
    (df <> [] -> centro_options df <> []) /\
    (forall c k,
        In k (concepto_options df c) <->
        k = "Todos" \/
        exists r, In r df /\ centro r = c /\ concepto r = k) /\
    (forall c k dates,
        In c (centro_options df) ->
        In k (concepto_options df c) ->
        List.length dates <> 2%nat ->
        df_filtered df c k dates <> []).
Proof.
  intros df.
  assert (Hopt : forall l x, In x (sort_by String.leb (unique l)) <-> In x l).
  { intros l x. split; intros H.
    - apply unique_In.
      eapply Permutation_in; [apply Permutation_sym, sort_by_perm|exact H].
    - eapply Permutation_in; [apply sort_by_perm|]. now apply unique_In. }
  assert (Hcon : forall c k,
             In k (concepto_options df c) <->
             k = "Todos" \/
             exists r, In r df /\ centro r = c /\ concepto r = k).
  { intros c k. unfold concepto_options. cbn [In]. rewrite Hopt, in_map_iff.
    split; intros [H | H]; auto; right.
    - destruct H as (r & Hk & Hr). apply filter_In in Hr.
      destruct Hr as (Hr & Hc). apply String.eqb_eq in Hc. eauto.
    - destruct H as (r & Hr & Hc & Hk). exists r. split; [exact Hk|].
      apply filter_In. split; [exact Hr|]. now apply String.eqb_eq. }
  split; [intros c; apply Hopt|].
  split.
  { eapply Permutation_NoDup; [apply sort_by_perm|apply unique_NoDup]. }
  split.
  { intros Hne H. destruct df as [|r df]; [now apply Hne|].
    assert (Hin : In (centro r) (centro_options (r :: df)))
      by (apply Hopt; now left).
    rewrite H in Hin. contradiction. }
  split; [exact Hcon|].
  intros c k dates Hc Hk Hlen.
  apply Hopt, in_map_iff in Hc. destruct Hc as (r0 & Hc0 & Hr0).
  assert (Hdates : df_filtered df c k dates = df_filtered df c k []).
  { unfold df_filtered. destruct dates as [|d1 [|d2 [|d3 dates]]];
      try reflexivity. now elim Hlen. }
  rewrite Hdates. unfold df_filtered.
  destruct (String.eqb_spec k "Todos") as [-> | Hne]; cbn [negb].
  - apply (filter_nonempty _ _ r0 Hr0). now apply String.eqb_eq.
  - apply Hcon in Hk. destruct Hk as [Hk | (r & Hr & Hrc & Hrk)];
      [contradiction|].
    apply (filter_nonempty _ _ r); [|now apply String.eqb_eq].
    apply filter_In. split; [exact Hr|]. now apply String.eqb_eq.
Qed.

Lemma sidebar_offers_what_is_loaded_witness :
  let df :=
    [mkFactRow 1 "B" "X" 1 (mkMeasures jan2 1100 0 20 70 1150);
     mkFactRow 2 "A" "Y" 1 (mkMeasures jan1 500 10 0 0 510);
     mkFactRow 3 "A" "X" 1 (mkMeasures jan1 1000 100 0 0 1100)] in
  centro_options df = ["A"; "B"] /\
  concepto_options df "A" = ["Todos"; "X"; "Y"] /\
  df_filtered df "A" "Y" [] <> [].
Proof.
  intros df. split; [reflexivity|]. split; [reflexivity|].
  destruct (sidebar_offers_what_is_loaded df) as (_ & _ & _ & _ & H).
  apply H.
  - vm_compute. now left.
  - vm_compute. right. right. now left.
  - discriminate.
Defined.

Lemma dict_get_set (key key' : string) (value : Z) (d : list (string * Z)) :
  dict_get key (dict_set key' value d) =
  if String.eqb key' key then Ok value else dict_get key d.
Proof.
  induction d as [|[k v] d IH]; simpl.
  - reflexivity.
  - destruct (String.eqb_spec k key') as [-> | Hne]; simpl.
    + now destruct (String.eqb key' key).
    + rewrite IH. destruct (String.eqb_spec k key) as [-> | _].
      * destruct (String.eqb_spec key' key) as [-> | _]; [now elim Hne|].
        reflexivity.
      * reflexivity.
Qed.

(** Filled from the newest upload to the oldest, the dict ends up with the
    key of the oldest upload under each label. *)
Lemma upload_list_rev (l : list Upload) (key : string) :
  dict_get key (upload_list (rev l)) =
  match find (fun u => String.eqb (upload_label u) key) l with
  | Some u => Ok (upload_id u)
  | None => Raise (KeyError key)
  end.
Proof.
  unfold upload_list. rewrite <- fold_left_rev_right, rev_involutive.
  induction l as [|u l IH]; simpl.
  - reflexivity.
  - rewrite dict_get_set. destruct (String.eqb (upload_label u) key).
    + reflexivity.
    + exact IH.
Qed.

Lemma find_first_key {A : Type} (key : A -> Z) (p : A -> bool) (l : list A)
    (u : A) :
  StronglySorted Z.lt (map key l) -> In u l -> p u = true ->
  exists x, find p l = Some x /\ In x l /\ p x = true /\ key x <= key u.
Proof.
  induction l as [|y l IH]; intros Hs Hin Hp; [contradiction|].
  simpl. inversion Hs as [|? ? Hs' Hall]; subst.
  destruct (p y) eqn:Hy.
  - exists y. repeat split; [now left|exact Hy|].
    destruct Hin as [<- | Hin]; [lia|].
    rewrite Forall_map, Forall_forall in Hall. specialize (Hall u Hin). lia.
  - destruct Hin as [<- | Hin]; [congruence|].
    destruct (IH Hs' Hin Hp) as (x & Hf & Hx & Hpx & Hle).
    exists x. repeat split; auto.
Qed.

(** X13.  In the upload control every upload is reachable by its label, and
    the delete button deletes the upload the dict holds under the selected
    label: when several uploads have the same file name and timestamp it is
    the oldest of them, and when labels are distinct it is the upload that
    was selected. *)
Theorem delete_button_picks_oldest :
  forall (db : DB) (u : Upload),
    reachable db ->
    In u (uploads db) ->
    exists oldest,
      In oldest (uploads db) /\
      upload_label oldest = upload_label u /\
      upload_id oldest <= upload_id u /\
      dict_get (upload_label u) (upload_list (get_uploads db)) =
        Ok (upload_id oldest) /\
      (forall faults,
          press_delete faults (upload_label u) db =
          delete_upload faults (upload_id oldest) db) /\
      (NoDup (map upload_label (uploads db)) -> oldest = u).
Proof.
  intros db u Hdb Hin.
  destruct (reachable_consistent db Hdb) as (Hs & _).
  assert (Hrev : get_uploads db = rev (uploads db))
    by now apply order_by_desc_of_increasing.
  destruct (find_first_key upload_id
              (fun x => String.eqb (upload_label x) (upload_label u))
              (uploads db) u Hs Hin (String.eqb_refl _))
    as (oldest & Hfind & Hold & Hlabel & Hle).
  apply String.eqb_eq in Hlabel.
  assert (Hget : dict_get (upload_label u) (upload_list (get_uploads db)) =
                 Ok (upload_id oldest))
    by now rewrite Hrev, upload_list_rev, Hfind.
  exists oldest. repeat split; auto.
  - intros faults. unfold press_delete. now rewrite Hget.
  - intros Hnd.
    now apply (NoDup_map_injective upload_label (uploads db)).
Qed.

Lemma delete_button_picks_oldest_witness :
  let db := replay [Upload_file None ledger_file "2024-01-04T09:00:00";
                    Upload_file None ledger_file "2024-01-04T09:00:00"]
              empty_db in
  map upload_id (uploads db) = [1; 2] /\
  press_delete None (upload_label (mkUpload 2 "ledger.xlsx"
                                     "2024-01-04T09:00:00")) db =
  delete_upload None 1 db.
Proof.
  intros db. split; [reflexivity|].
  assert (Hdb : reachable db).
  { apply (perform_reachable
             (Upload_file None ledger_file "2024-01-04T09:00:00")).
    apply (perform_reachable
             (Upload_file None ledger_file "2024-01-04T09:00:00")).
    apply reach_init. }
  destruct (delete_button_picks_oldest db
              (mkUpload 2 "ledger.xlsx" "2024-01-04T09:00:00") Hdb)
    as (oldest & _ & _ & _ & Hget & _).
  - vm_compute. right. now left.
  - assert (Hid : upload_id oldest = 1).
    { pose proof Hget as H2. vm_compute in H2. injection H2 as E.
      exact (eq_sym E). }
    unfold press_delete. rewrite Hget, Hid. reflexivity.
Defined.

(* ================================================================== *)
(** * Further properties of ingestion *)

Lemma for_each_app {A : Type} (l l' : list A) (body : A -> Sql unit)
    (c : Conn) :
  for_each (l ++ l') body c =
  match for_each l body c with
  | (Ok _, c') => for_each l' body c'
  | (Raise e, c') => (Raise e, c')
  end.
Proof.
  revert c. induction l as [|x l IH]; intros c; simpl.
  - reflexivity.
  - unfold bind. destruct (body x c) as [[[]|e] c1]; [apply IH|reflexivity].
Qed.

Lemma first_unbindable_raises (row : string -> Cell) (fecha0 : PyText)
    (uid : Z) (pos : nat) :
  first_unbindable row = Some pos ->
  bind_params
    (mkFactParams fecha0 (row "Centro") (row "Concepto") (row "Inicial")
       (row "Aportación") (row "Retiro") (row "Rendimiento") (row "Saldo")
       uid) = Raise (BindError pos) /\
  (2 <= pos <= 8)%nat /\
  exists h, In (pos, h) bound_columns /\ adapt (row h) = None.
Proof.
  unfold first_unbindable, bound_columns, bind_params, bind_param.
  cbn [find snd fst option_map p_centro p_concepto p_inicial p_aportacion
       p_retiro p_rendimiento p_saldo].
  destruct (adapt (row "Centro")) eqn:E1;
    [|intros [= <-]; repeat split; try lia; exists "Centro"; cbn; tauto].
  destruct (adapt (row "Concepto")) eqn:E2;
    [|intros [= <-]; repeat split; try lia; exists "Concepto"; cbn; tauto].
  destruct (adapt (row "Inicial")) eqn:E3;
    [|intros [= <-]; repeat split; try lia; exists "Inicial"; cbn; tauto].
  destruct (adapt (row "Aportación")) eqn:E4;
    [|intros [= <-]; repeat split; try lia; exists "Aportación"; cbn; tauto].
  destruct (adapt (row "Retiro")) eqn:E5;
    [|intros [= <-]; repeat split; try lia; exists "Retiro"; cbn; tauto].
  destruct (adapt (row "Rendimiento")) eqn:E6;
    [|intros [= <-]; repeat split; try lia; exists "Rendimiento"; cbn; tauto].
  destruct (adapt (row "Saldo")) eqn:E7;
    [|intros [= <-]; repeat split; try lia; exists "Saldo"; cbn; tauto].
  discriminate.
Qed.

(** X14.  In a sheet with the eight labels whose rows are well typed up to a
    row that holds a cell of a type [sqlite3] cannot bind, [save_upload]
    raises the binding error of the first such parameter of that row,
    counted from 1 in the parameter tuple (5 for "Aportación"), and the
    whole upload is dropped: the rows inserted before it and the row of
    [uploads] are rolled back with it. *)
Theorem unbindable_cell_drops_upload :
  forall (file : UploadedFile) (df : DataFrame) (now : string) (db : DB)
         (before after : list (string -> Cell)) (row : string -> Cell)
         (pos : nat),
    workbook file = Some df ->
    has_columns df ->
    iterrows df = before ++ row :: after ->
    Forall (fun r => well_typed r = true) before ->
    typed_or_object row = true ->
    first_unbindable row = Some pos ->
    save_upload None file now db = (Raise (BindError pos), db) /\
    (2 <= pos <= 8)%nat /\
    exists h, In (pos, h) bound_columns /\ row h = CObject.
Proof.
  intros file df now db before after row pos Hwb Hcols Hrows Hbefore Hrow
         Hfirst.
  set (uid := seq_uploads db + 1).
  destruct (first_unbindable_raises row (py_str (row "Fecha")) uid pos Hfirst)
    as (Hpos & Hrange & h & Hh & Hcell).
  split; [|split; [exact Hrange|]].
  - assert (Hbind : Forall bindable before).
    { eapply Forall_impl; [|exact Hbefore]. intros r.
      apply well_typed_bindable. }
    unfold save_upload, with_connection, save_upload_body, bind.
    rewrite execute_no_fault by reflexivity.
    cbn [fst snd txn disk insert_upload lift].
    unfold read_excel. rewrite Hwb, Hrows, for_each_app.
    fold uid. set (c1 := mkConn db _ None).
    destruct (for_each_insert_no_fault df uid before c1 Hcols Hbind eq_refl)
      as (c' & Hloop & Hb).
    pose proof (for_each_pending before (insert_row df uid)
                  (insert_row_pending df uid) c1) as Hdisk.
    rewrite Hloop in *. cbn [snd disk c1] in Hdisk.
    cbn [for_each]. unfold bind at 1. unfold insert_row at 1.
    unfold bind, lift.
    rewrite (fact_params_total df row uid Hcols), Hpos.
    cbn [snd disk]. now rewrite Hdisk.
  - exists h. split; [exact Hh|].
    destruct (row h); simpl in Hcell; congruence.
Qed.

Lemma unbindable_cell_drops_upload_witness :
  let file :=
    mkUploadedFile "horas.xlsx"
      (Some (sheet expected_columns
               [ [CStamp jan1; CText "A"; CText "X";
                  CNum 1000; CNum 100; CNum 0; CNum 0; CNum 1100];
                 [CStamp jan2; CText "A"; CText "X";
                  CNum 1100; CObject; CNum 20; CNum 70; CNum 1150] ])) in
  save_upload None file "2024-01-04T09:00:00" empty_db =
  (Raise (BindError 5), empty_db).
Proof.
  intros file.
  eapply (unbindable_cell_drops_upload file _ "2024-01-04T09:00:00" empty_db
            [_] [] _ 5%nat).
  - reflexivity.
  - apply has_columns_sheet.
  - reflexivity.
  - constructor; [vm_compute; reflexivity|constructor].
  - vm_compute. reflexivity.
  - vm_compute. reflexivity.
Defined.
